(** * Azure Text Analytics dashboard (app.py): analysis cycle

    A shallow embedding of the Streamlit script [app.py].  The script has no
    functions of its own: one run of the script renders the page, and when the
    text and the credentials are present and the button was pressed it issues
    the remote calls and renders what they return.

    - The values the Azure client returns are modelled as dynamically typed
      Python values ([pyval]); every attribute access, subscript, call of
      [.upper()], [len] and percent format is fallible, as it is in Python.
    - The remote service is a parameter: a state type and a function that
      answers one operation and gives the next service state.
    - A run threads a [world]: the service state, the log of remote calls
      and the list of widgets put on the screen, in the order of execution.
    - Exceptions are the instances of Python's [Exception]; KeyboardInterrupt
      and SystemExit are not failures of an operation and are not modelled,
      so every statement about what is caught is about instances of
      [Exception].
    - Texts that the Python runtime formats ([str(e)], a float under the
      format [.0%], [len(x)] in an f-string, [s.upper()] of a text that is
      not ASCII) are kept symbolically in [frag], so neither floating-point
      rounding nor Unicode case tables are invented here.  Scores are
      rationals.  What the formats refuse is modelled: an int too large for
      a float under [.0%], an int beyond the digit limit of CPython 3.11
      under [str].
    - A str is its UTF-8 bytes; [len], subscripts and iteration go by code
      point.
    - [st.dataframe] may refuse its data: what it does is a parameter, beside
      the Azure SDK.  [st.code] shows [str] of its argument.  The other
      widgets are given texts and do not raise; the button is pressed or
      not, as the inputs of the run say.
    - The sidebar and the left column make no call; of the page, the right
      column (lines 62 to 187) is modelled. *)

From Stdlib Require Import List String Ascii ZArith QArith Bool Lia.
Import ListNotations.
Local Open Scope string_scope.
Local Open Scope list_scope.
Local Open Scope nat_scope.

(** ** Python values and exceptions *)

#[local] Set Warnings "-register-all".

Inductive pyval : Type :=
| PNone
| PBool (b : bool)
| PInt (n : Z)
| PFloat (x : Q)
| PStr (s : string)
| PList (items : list pyval)
| PObj (attrs : list (string * pyval)).

Inductive exn : Type :=
| AttributeError (attr : string)      (* object has no attribute [attr] *)
| IndexError                          (* index out of range *)
| TypeError (what : string)           (* operation not supported by the type *)
| ValueError (what : string)          (* unknown format code, digit limit *)
| OverflowError (what : string)       (* int too large for a float *)
| ServiceError (cls message : string) (* raised by the Azure client *).

(** Runtime-formatted pieces of a displayed text. *)
Inductive frag : Type :=
| Lit (s : string)
| Str (v : pyval)        (* [{v}] in an f-string, [v] not a str *)
| Pct0 (v : pyval)       (* [{v:.0%}], [v] a number *)
| Dec (n : nat)          (* [{n}], [n] an int *)
| StrExn (e : exn)       (* [str(e)] *)
| Upper (s : string)     (* [s.upper()], [s] not ASCII *).

Definition text := list frag.

(** A row of [st.dataframe]: column name and cell. *)
Inductive cell : Type :=
| CVal (v : pyval)
| CText (t : text).

Definition row := list (string * cell).

(** The widgets of [streamlit] the analysis column uses. *)
Inductive event : Type :=
| Header (s : string)
| Button (label : string)
| Spinner (label : string)
| Subheader (s : string)
| Markdown (t : text) (unsafe_allow_html : bool)
| Columns (n : nat)
| Metric (label : string) (value : text)
| Info (t : text)
| Success (t : text)
| Warning (t : text)
| Error (t : text)
| Dataframe (data : list row)
| Expander (label : string)
| Code (body : pyval).

(** ** Python's operations on values *)

Fixpoint assoc {A : Type} (k : string) (d : list (string * A)) : option A :=
  match d with
  | [] => None
  | (k', v) :: d' => if String.eqb k k' then Some v else assoc k d'
  end.

(** [if v:] *)
Definition truthy (v : pyval) : bool :=
  match v with
  | PNone => false
  | PBool b => b
  | PInt n => negb (Z.eqb n 0)
  | PFloat x => negb (Z.eqb (Qnum x) 0)
  | PStr s => negb (String.eqb s EmptyString)
  | PList items => match items with [] => false | _ => true end
  | PObj _ => true
  end.

(** [v.name] *)
Definition getattr (v : pyval) (name : string) : exn + pyval :=
  match v with
  | PObj attrs =>
      match assoc name attrs with
      | Some x => inr x
      | None => inl (AttributeError name)
      end
  | _ => inl (AttributeError name)
  end.

(** The code points of a str, each with its UTF-8 bytes: a byte
    [10xxxxxx] continues the code point of the byte before it. *)
Definition is_continuation (c : ascii) : bool :=
  andb (Nat.leb 128 (nat_of_ascii c)) (Nat.ltb (nat_of_ascii c) 192).

Fixpoint points_from (l : list ascii) : string * list string :=
  match l with
  | [] => (EmptyString, [])
  | c :: l' =>
      let (pending, done) := points_from l' in
      if is_continuation c then (String c pending, done)
      else (EmptyString, String c pending :: done)
  end.

Definition codepoints (s : string) : list string :=
  let (pending, done) := points_from (list_ascii_of_string s) in
  match pending with
  | EmptyString => done
  | _ => pending :: done
  end.

Definition chars (s : string) : list pyval := map PStr (codepoints s).

(** [v[0]] *)
Definition item0 (v : pyval) : exn + pyval :=
  match v with
  | PList items =>
      match items with
      | x :: _ => inr x
      | [] => inl IndexError
      end
  | PStr s =>
      match chars s with
      | c :: _ => inr c
      | [] => inl IndexError
      end
  | _ => inl (TypeError "not subscriptable")
  end.

(** The elements a [for] loop visits in [v]. *)
Definition iter (v : pyval) : exn + list pyval :=
  match v with
  | PList items => inr items
  | PStr s => inr (chars s)
  | _ => inl (TypeError "not iterable")
  end.

(** The elements a [for] loop visits in [v[:10]]. *)
Definition slice10 (v : pyval) : exn + list pyval :=
  match v with
  | PList items => inr (firstn 10 items)
  | PStr s => inr (firstn 10 (chars s))
  | _ => inl (TypeError "not subscriptable")
  end.

(** [len(v)] *)
Definition len (v : pyval) : exn + nat :=
  match v with
  | PList items => inr (List.length items)
  | PStr s => inr (List.length (codepoints s))
  | _ => inl (TypeError "has no len()")
  end.

Definition upper_ascii (c : ascii) : ascii :=
  let n := nat_of_ascii c in
  if andb (Nat.leb 97 n) (Nat.leb n 122) then ascii_of_nat (n - 32) else c.

Fixpoint upper_string (s : string) : string :=
  match s with
  | EmptyString => EmptyString
  | String c s' => String (upper_ascii c) (upper_string s')
  end.

Definition is_ascii (s : string) : bool :=
  forallb (fun c => Nat.ltb (nat_of_ascii c) 128) (list_ascii_of_string s).

(** [s.upper()]: on ASCII text the letters a to z change and nothing else;
    on other text the result is what the Unicode tables of the runtime
    give. *)
Definition upper_text (s : string) : frag :=
  if is_ascii s then Lit (upper_string s) else Upper s.

(** [v.upper()] *)
Definition upper (v : pyval) : exn + frag :=
  match v with
  | PStr s => inr (upper_text s)
  | PObj attrs =>
      match assoc "upper" attrs with
      | Some _ => inl (TypeError "not callable")
      | None => inl (AttributeError "upper")
      end
  | _ => inl (AttributeError "upper")
  end.

(** An int goes through a float under [.0%]: from [2^1024 - 2^970] on it
    rounds beyond the largest double. *)
Definition float_limit : Z := 2 ^ 1024 - 2 ^ 970.

Arguments float_limit : simpl never.

(** [f"{v:.0%}"] *)
Definition format_pct0 (v : pyval) : exn + text :=
  match v with
  | PBool _ | PFloat _ => inr [Pct0 v]
  | PInt n =>
      if Z.ltb (Z.abs n) float_limit then inr [Pct0 v]
      else inl (OverflowError "int too large to convert to float")
  | PStr _ => inl (ValueError "unknown format code '%'")
  | _ => inl (TypeError "unsupported format string")
  end.

(** The values [.0%] formats. *)
Definition percent_ok (v : pyval) : bool :=
  match v with
  | PBool _ | PFloat _ => true
  | PInt n => Z.ltb (Z.abs n) float_limit
  | _ => false
  end.

(** [str] of an int of more than 4300 digits raises (CPython 3.11); so does
    [str] of a list or of a model of the SDK that holds one, as their [str]
    shows what they hold. *)
Definition int_str_limit : Z := 10 ^ 4300.

Arguments int_str_limit : simpl never.

Fixpoint huge_int (v : pyval) : bool :=
  match v with
  | PInt n => Z.leb int_str_limit (Z.abs n)
  | PList items =>
      (fix any (l : list pyval) : bool :=
         match l with
         | [] => false
         | x :: l' => huge_int x || any l'
         end) items
  | PObj attrs =>
      (fix any (l : list (string * pyval)) : bool :=
         match l with
         | [] => false
         | (_, x) :: l' => huge_int x || any l'
         end) attrs
  | _ => false
  end.

(** [str(v)], kept as a fragment. *)
Definition str (v : pyval) : exn + frag :=
  match v with
  | PStr s => inr (Lit s)
  | _ =>
      if huge_int v
      then inl (ValueError "Exceeds the limit for integer string conversion")
      else inr (Str v)
  end.

(** [f"{v}"] *)
Definition format (v : pyval) : exn + frag := str v.

(** [d.get(key, default)] on a dict with str keys. *)
Definition dict_get (d : list (string * string)) (key : pyval) (default : string)
  : exn + string :=
  match key with
  | PList _ => inl (TypeError "unhashable type")
  | PStr s =>
      match assoc s d with
      | Some x => inr x
      | None => inr default
      end
  | _ => inr default
  end.

(** Fallible pure code: [exn + A] with the first exception winning. *)
Definition bindE {A B : Type} (r : exn + A) (k : A -> exn + B) : exn + B :=
  match r with
  | inl e => inl e
  | inr a => k a
  end.

(** A loop that builds a list and stops at the first exception. *)
Fixpoint mapE {A B : Type} (f : A -> exn + B) (l : list A) : exn + list B :=
  match l with
  | [] => inr []
  | x :: l' =>
      bindE (f x) (fun y => bindE (mapE f l') (fun ys => inr (y :: ys)))
  end.

(** [sep.join(parts)] *)
Fixpoint join (sep : text) (parts : list text) : text :=
  match parts with
  | [] => []
  | [p] => p
  | p :: ps => p ++ sep ++ join sep ps
  end.

(** ** The remote service and the world of a run *)

Inductive operation : Type :=
| AnalyzeSentiment
| ExtractKeyPhrases
| DetectLanguage
| RecognizeEntities
| RecognizePiiEntities.

(** One remote call as it was issued and answered. *)
Record call : Type := Call {
  call_op : operation;
  call_endpoint : string;
  call_key : string;
  call_documents : list string;
  call_result : exn + pyval
}.

Record client : Type := Client {
  client_endpoint : string;
  client_key : string
}.

(** What the user has put into the page when the script runs. *)
Record inputs : Type := Inputs {
  endpoint : string;
  api_key : string;
  user_text : string;
  analyze_clicked : bool
}.

(** The libraries under the script.  The Azure SDK and the service behind
    it: the constructor of the client may raise, and a call is answered from
    the state of the service, which it may change.  Streamlit: what
    [st.dataframe] raises, if anything, for the data it is given. *)
Record sdk : Type := Sdk {
  service : Type;
  client_init : string -> string -> option exn;
  request :
    operation -> client -> list string -> service -> (exn + pyval) * service;
  dataframe_error : list row -> option exn
}.

Section Dashboard.

Variable K : sdk.

Record world : Type := World {
  svc : service K;
  calls : list call;
  screen : list event
}.

(** State and exceptions. *)
Definition M (A : Type) : Type := world -> (exn + A) * world.

Definition ret {A : Type} (a : A) : M A := fun w => (inr a, w).

Definition raise {A : Type} (e : exn) : M A := fun w => (inl e, w).

Definition bind {A B : Type} (m : M A) (k : A -> M B) : M B :=
  fun w =>
    match m w with
    | (inl e, w') => (inl e, w')
    | (inr a, w') => k a w'
    end.

Definition lift {A : Type} (r : exn + A) : M A := fun w => (r, w).

(** [try: m] with [except: h e] *)
Definition try_except {A : Type} (m : M A) (h : exn -> M A) : M A :=
  fun w =>
    match m w with
    | (inl e, w') => h e w'
    | (inr a, w') => (inr a, w')
    end.

Definition emit (ev : event) : M unit :=
  fun w => (inr tt, World (svc w) (calls w) (screen w ++ [ev])).

(** A method of the client: the request goes out, the answer is logged. *)
Definition client_call (op : operation) (c : client) (documents : list string)
  : M pyval :=
  fun w =>
    let (r, s') := request K op c documents (svc w) in
    (r, World s'
          (calls w ++ [Call op (client_endpoint c) (client_key c) documents r])
          (screen w)).

Definition TextAnalyticsClient (endpoint api_key : string) : M client :=
  match client_init K endpoint api_key with
  | Some e => raise e
  | None => ret (Client endpoint api_key)
  end.

(** [st.dataframe(data, ...)] *)
Definition st_dataframe (data : list row) : M unit :=
  match dataframe_error K data with
  | Some e => raise e
  | None => emit (Dataframe data)
  end.

(** [st.code(body)] *)
Definition st_code (body : pyval) : M unit :=
  match str body with
  | inl e => raise e
  | inr _ => emit (Code body)
  end.

Notation "x <- m ;; k" := (bind m (fun x => k))
  (at level 61, m at next level, right associativity).
Notation "m ;; k" := (bind m (fun _ => k))
  (at level 61, right associativity).

(** ** The script, lines 62 to 187 *)

Definition sentiment_emoji : list (string * string) :=
  [("positive", "😊"); ("negative", "😞"); ("neutral", "😐"); ("mixed", "🤔")].

Definition rule : text := [Lit "---"].

(** Lines 81 to 105: what is done with the answer of [analyze_sentiment]. *)
Definition show_sentiment (response : pyval) : M unit :=
  sentiment_result <- lift (item0 response) ;;
  sentiment <- lift (getattr sentiment_result "sentiment") ;;
  scores <- lift (getattr sentiment_result "confidence_scores") ;;
  emoji <- lift (dict_get sentiment_emoji sentiment "😐") ;;
  label <- lift (upper sentiment) ;;
  emit (Markdown [Lit "### "; Lit emoji; Lit " "; label] false) ;;
  emit (Columns 3) ;;
  positive <- lift (bindE (getattr scores "positive") format_pct0) ;;
  emit (Metric "Positive" positive) ;;
  negative <- lift (bindE (getattr scores "negative") format_pct0) ;;
  emit (Metric "Negative" negative) ;;
  neutral <- lift (bindE (getattr scores "neutral") format_pct0) ;;
  emit (Metric "Neutral" neutral) ;;
  emit (Markdown rule false).

(** Lines 79 to 105. *)
Definition sentiment_analysis (c : client) (documents : list string) : M unit :=
  emit (Subheader "😊 Sentiment Analysis") ;;
  response <- client_call AnalyzeSentiment c documents ;;
  show_sentiment response.

Definition dquote : string := String "034"%char EmptyString.

Definition span_open : string :=
  "<span style=" ++ dquote
  ++ "background-color: #E3F2FD; padding: 5px 10px; margin: 3px; border-radius: 15px; display: inline-block;"
  ++ dquote ++ ">".

(** The f-string of line 114 for one phrase. *)
Definition span (phrase : pyval) : exn + text :=
  bindE (format phrase) (fun f => inr [Lit span_open; f; Lit "</span>"]).

(** Lines 113 to 116. *)
Definition phrases_html (phrases : list pyval) : exn + text :=
  bindE (mapE span phrases) (fun spans => inr (join [Lit " "] spans)).

(** Lines 109 to 121: what is done with the answer of
    [extract_key_phrases]. *)
Definition show_key_phrases (response : pyval) : M unit :=
  key_phrases_result <- lift (item0 response) ;;
  phrases <- lift (getattr key_phrases_result "key_phrases") ;;
  (if truthy phrases then
     html <- lift (bindE (slice10 phrases) phrases_html) ;;
     emit (Markdown html true)
   else
     emit (Info [Lit "No key phrases detected"])) ;;
  emit (Markdown rule false).

(** Lines 107 to 121. *)
Definition key_phrases (c : client) (documents : list string) : M unit :=
  emit (Subheader "🔑 Key Phrases") ;;
  response <- client_call ExtractKeyPhrases c documents ;;
  show_key_phrases response.

(** Lines 125 to 134: what is done with the answer of [detect_language]. *)
Definition show_language (response : pyval) : M unit :=
  language_result <- lift (item0 response) ;;
  lang <- lift (getattr language_result "primary_language") ;;
  emit (Columns 2) ;;
  name <- lift (bindE (getattr lang "name") format) ;;
  iso <- lift (bindE (getattr lang "iso6391_name") format) ;;
  emit (Info [Lit "**"; name; Lit "** ("; iso; Lit ")"]) ;;
  confidence <- lift (bindE (getattr lang "confidence_score") format_pct0) ;;
  emit (Info ([Lit "Confidence: **"] ++ confidence ++ [Lit "**"])) ;;
  emit (Markdown rule false).

(** Lines 123 to 134. *)
Definition language_detection (c : client) (documents : list string) : M unit :=
  emit (Subheader "🌍 Language") ;;
  response <- client_call DetectLanguage c documents ;;
  show_language response.

(** The dict appended to [entity_data] for one entity. *)
Definition entity_row (entity : pyval) : exn + row :=
  bindE (getattr entity "text") (fun text =>
  bindE (getattr entity "category") (fun category =>
  bindE (bindE (getattr entity "confidence_score") format_pct0) (fun confidence =>
  inr [("Entity", CVal text); ("Category", CVal category);
       ("Confidence", CText confidence)]))).

(** Lines 138 to 154: what is done with the answer of
    [recognize_entities]. *)
Definition show_entities (response : pyval) : M unit :=
  entities_result <- lift (item0 response) ;;
  entities <- lift (getattr entities_result "entities") ;;
  (if truthy entities then
     entity_data <- lift (bindE (slice10 entities) (mapE entity_row)) ;;
     st_dataframe entity_data
   else
     emit (Info [Lit "No entities detected"])) ;;
  emit (Markdown rule false).

(** Lines 136 to 154. *)
Definition named_entities (c : client) (documents : list string) : M unit :=
  emit (Subheader "🏷️ Named Entities") ;;
  response <- client_call RecognizeEntities c documents ;;
  show_entities response.

(** The dict appended to [pii_data] for one entity. *)
Definition pii_row (entity : pyval) : exn + row :=
  bindE (getattr entity "category") (fun category =>
  bindE (getattr entity "text") (fun text =>
  inr [("Type", CVal category); ("Text", CVal text)])).

Definition pii_title : string := "🔒 Personal Information (PII)".
Definition pii_unavailable : text :=
  [Lit "PII detection not available for this language"].
Definition pii_none : text := [Lit "✅ No personal information detected"].

(** Lines 159 to 176: what is done with the answer of
    [recognize_pii_entities]. *)
Definition show_pii (response : pyval) : M unit :=
  pii_result <- lift (item0 response) ;;
  entities <- lift (getattr pii_result "entities") ;;
  if truthy entities then
    n <- lift (len entities) ;;
    emit (Warning [Lit "⚠️ "; Dec n; Lit " PII entities detected"]) ;;
    pii_data <- lift (bindE (iter entities) (mapE pii_row)) ;;
    st_dataframe pii_data ;;
    emit (Expander "👁️ View Redacted Text") ;;
    redacted_text <- lift (getattr pii_result "redacted_text") ;;
    st_code redacted_text
  else
    emit (Success pii_none).

(** Lines 159 to 176: the body of the inner [try]. *)
Definition pii_body (c : client) (documents : list string) : M unit :=
  response <- client_call RecognizePiiEntities c documents ;;
  show_pii response.

(** Lines 156 to 178: the bare [except:] catches whatever the body raises. *)
Definition pii_detection (c : client) (documents : list string) : M unit :=
  emit (Subheader pii_title) ;;
  try_except (pii_body c documents)
             (fun _ => emit (Info pii_unavailable)).

Definition credentials_hint : text :=
  [Lit "💡 Make sure your credentials are correct"].

(** Lines 71 to 178: the body of the outer [try]. *)
Definition analysis (endpoint api_key user_text : string) : M unit :=
  c <- TextAnalyticsClient endpoint api_key ;;
  let documents := [user_text] in
  sentiment_analysis c documents ;;
  key_phrases c documents ;;
  language_detection c documents ;;
  named_entities c documents ;;
  pii_detection c documents.

(** Lines 69 to 182: the spinner and the outer [try ... except Exception]. *)
Definition analyze (endpoint api_key user_text : string) : M unit :=
  emit (Spinner "Analyzing...") ;;
  try_except (analysis endpoint api_key user_text)
             (fun e => emit (Error [Lit "❌ Error: "; StrExn e]) ;;
                       emit (Info credentials_hint)).

(** [if s:] on a str. *)
Definition nonempty (s : string) : bool := negb (String.eqb s EmptyString).

(** Lines 62 to 187: the right column. *)
Definition ai_analysis (i : inputs) : M unit :=
  emit (Header "🎯 AI Analysis") ;;
  if nonempty (user_text i) && nonempty (endpoint i) && nonempty (api_key i) then
    emit (Button "🚀 Analyze Text") ;;
    if analyze_clicked i then
      analyze (endpoint i) (api_key i) (user_text i)
    else ret tt
  else if nonempty (user_text i) then
    emit (Warning [Lit "⚠️ Please enter Azure credentials in the sidebar"])
  else
    emit (Info [Lit "👈 Enter text to analyze"]).

(** One run of the script.  Streamlit executes the script from its first
    line on every run and the script keeps nothing in [st.session_state]:
    nothing is on the screen, no call has been made, and only the service
    keeps its state from before. *)
Definition run (i : inputs) (s : service K) : (exn + unit) * world :=
  ai_analysis i (World s [] []).

End Dashboard.

Arguments World {K} svc calls screen.
Arguments svc {K} w.
Arguments calls {K} w.
Arguments screen {K} w.
Arguments ret {K A} a w.
Arguments raise {K A} e w.
Arguments bind {K A B} m k w.
Arguments client_call {K} op c documents w.
Arguments TextAnalyticsClient {K} endpoint api_key w.
Arguments st_dataframe {K} data w.
Arguments st_code {K} body w.
Arguments show_sentiment {K} response w.
Arguments sentiment_analysis {K} c documents w.
Arguments show_key_phrases {K} response w.
Arguments key_phrases {K} c documents w.
Arguments show_language {K} response w.
Arguments language_detection {K} c documents w.
Arguments show_entities {K} response w.
Arguments named_entities {K} c documents w.
Arguments show_pii {K} response w.
Arguments pii_body {K} c documents w.
Arguments pii_detection {K} c documents w.
Arguments analysis {K} endpoint api_key user_text w.
Arguments analyze {K} endpoint api_key user_text w.
Arguments lift {K A} r w.
Arguments try_except {K A} m h w.
Arguments emit {K} ev w.

Notation "x <- m ;; k" := (bind m (fun x => k))
  (at level 61, m at next level, right associativity).
Notation "m ;; k" := (bind m (fun _ => k))
  (at level 61, right associativity).

(** ** What a finished run shows

    The report of the spec is read off the screen and the call log. *)

Definition is_spinner (ev : event) : bool :=
  match ev with Spinner _ => true | _ => false end.

Definition is_error (ev : event) : bool :=
  match ev with Error _ => true | _ => false end.

Definition is_pii_title (ev : event) : bool :=
  match ev with Subheader s => String.eqb s pii_title | _ => false end.

(** The states of one cycle; [Requesting] is the state while the spinner is
    up, a finished run is in one of the other three. *)
Inductive cycle_state : Type := Idle | Requesting | Succeeded | Failed.

Definition entered_requesting (scr : list event) : bool :=
  existsb is_spinner scr.

Definition final_state (scr : list event) : cycle_state :=
  if entered_requesting scr then
    if existsb is_error scr then Failed else Succeeded
  else Idle.

(** The widgets below the PII subheader, when it is on the screen. *)
Fixpoint pii_section (scr : list event) : option (list event) :=
  match scr with
  | [] => None
  | ev :: scr' => if is_pii_title ev then Some scr' else pii_section scr'
  end.

Inductive PiiOutcome : Type :=
| NotAttempted
| Detected
| NoPii
| Unavailable.

(** The last widget of the PII section tells how the step ended. *)
Definition pii_outcome (scr : list event) : PiiOutcome :=
  match pii_section scr with
  | None => NotAttempted
  | Some evs =>
      match rev evs with
      | Info _ :: _ => Unavailable
      | Success _ :: _ => NoPii
      | Code _ :: _ => Detected
      | _ => NotAttempted
      end
  end.

(** The fixed order of the five operations. *)
Definition op_sequence : list operation :=
  [AnalyzeSentiment; ExtractKeyPhrases; DetectLanguage; RecognizeEntities;
   RecognizePiiEntities].

Definition is_pii_op (op : operation) : bool :=
  match op with RecognizePiiEntities => true | _ => false end.

Definition fatal_error (e : exn) : list event :=
  [Error [Lit "❌ Error: "; StrExn e]; Info credentials_hint].

(** A widget that is neither the spinner, nor an error, nor the PII
    subheader. *)
Definition plain (ev : event) : bool :=
  negb (is_spinner ev || is_error ev || is_pii_title ev).

(** A computation that only puts plain widgets on the screen: its result and
    its widgets do not depend on the world, and it leaves the service and the
    call log alone. *)
Definition quiet {K : sdk} {A : Type} (m : M K A) : Prop :=
  exists r es,
    forallb plain es = true /\
    forall w, m w = (r, World (svc w) (calls w) (screen w ++ es)).

(** [m] puts the widgets [es] on the screen, ends with [r], and leaves the
    service and the call log alone. *)
Definition shows {K : sdk} {A : Type} (m : M K A) (r : exn + A)
  (es : list event) : Prop :=
  forall w, m w = (r, World (svc w) (calls w) (screen w ++ es)).

Definition logged (c : client) (documents : list string) (op : operation)
  (r : exn + pyval) : call :=
  Call op (client_endpoint c) (client_key c) documents r.

(** A block of the script: a subheader, one call of the client, and the
    display of the answer. *)
Record block (K : sdk) : Type := Block {
  block_op : operation;
  block_title : string;
  block_show : pyval -> M K unit
}.

Arguments Block {K} block_op block_title block_show.
Arguments block_op {K} b.
Arguments block_title {K} b.
Arguments block_show {K} b response w.

Definition run_block {K : sdk} (c : client) (documents : list string)
  (b : block K) : M K unit :=
  emit (Subheader (block_title b)) ;;
  response <- client_call (block_op b) c documents ;;
  block_show b response.

Fixpoint run_blocks {K : sdk} (c : client) (documents : list string)
  (bs : list (block K)) : M K unit :=
  match bs with
  | [] => ret tt
  | b :: bs' => run_block c documents b ;; run_blocks c documents bs'
  end.

(** Steps 1 to 4 as blocks. *)
Definition first_four (K : sdk) : list (block K) :=
  [Block AnalyzeSentiment "😊 Sentiment Analysis" show_sentiment;
   Block ExtractKeyPhrases "🔑 Key Phrases" show_key_phrases;
   Block DetectLanguage "🌍 Language" show_language;
   Block RecognizeEntities "🏷️ Named Entities" show_entities].

(** How a sequence of blocks runs from a service state: the result, the
    calls made, the widgets shown and the state of the service at the end. *)
Inductive blocks_run {K : sdk} (c : client) (documents : list string)
  : list (block K) -> service K -> exn + unit -> list call -> list event ->
    service K -> Prop :=
| run_done s :
    blocks_run c documents [] s (inr tt) [] [] s
| run_call_failed b bs s e s' :
    request K (block_op b) c documents s = (inl e, s') ->
    blocks_run c documents (b :: bs) s (inl e)
      [logged c documents (block_op b) (inl e)]
      [Subheader (block_title b)] s'
| run_show_failed b bs s v s' e es :
    request K (block_op b) c documents s = (inr v, s') ->
    shows (block_show b v) (inl e) es ->
    forallb plain es = true ->
    blocks_run c documents (b :: bs) s (inl e)
      [logged c documents (block_op b) (inr v)]
      (Subheader (block_title b) :: es) s'
| run_next b bs s v s' es r cs es' s'' :
    request K (block_op b) c documents s = (inr v, s') ->
    shows (block_show b v) (inr tt) es ->
    forallb plain es = true ->
    blocks_run c documents bs s' r cs es' s'' ->
    blocks_run c documents (b :: bs) s r
      (logged c documents (block_op b) (inr v) :: cs)
      (Subheader (block_title b) :: es ++ es') s''.

(** What the PII block shows for an answer of the service. *)
Inductive pii_shown {K : sdk} : exn + pyval -> list event -> Prop :=
| pii_call_failed e :
    pii_shown (inl e) [Info pii_unavailable]
| pii_show_failed v e es :
    shows (K := K) (show_pii v) (inl e) es ->
    forallb plain es = true ->
    pii_shown (inr v) (es ++ [Info pii_unavailable])
| pii_show_done v es :
    shows (K := K) (show_pii v) (inr tt) es ->
    forallb plain es = true ->
    pii_shown (inr v) es.

(** How one cycle runs once the client exists: steps 1 to 4 fail and the
    error is reported, or they pass and the PII block follows. *)
Inductive cycle_run {K : sdk} (c : client) (documents : list string)
  (s : service K) : list call -> list event -> service K -> Prop :=
| cycle_failed e cs es s' :
    blocks_run c documents (first_four K) s (inl e) cs es s' ->
    cycle_run c documents s cs (es ++ fatal_error e) s'
| cycle_passed cs es s' ans s'' pes :
    blocks_run c documents (first_four K) s (inr tt) cs es s' ->
    request K RecognizePiiEntities c documents s' = (ans, s'') ->
    pii_shown (K := K) ans pes ->
    cycle_run c documents s
      (cs ++ [logged c documents RecognizePiiEntities ans])
      (es ++ Subheader pii_title :: pes) s''.

(** The emoji line 94 shows for a str label. *)
Definition emoji_for (label : string) : string :=
  match assoc label sentiment_emoji with
  | Some x => x
  | None => "😐"
  end.

(** What [show_sentiment] puts on the screen when nothing raises. *)
Definition sentiment_widgets (label : string) (pos neg neu : pyval)
  : list event :=
  [Markdown [Lit "### "; Lit (emoji_for label); Lit " "; upper_text label]
     false;
   Columns 3;
   Metric "Positive" [Pct0 pos];
   Metric "Negative" [Pct0 neg];
   Metric "Neutral" [Pct0 neu];
   Markdown rule false].



(** The condition of line 65. *)
Definition all_present (i : inputs) : bool :=
  nonempty (user_text i) && nonempty (endpoint i) && nonempty (api_key i).

Definition page_top : list event :=
  [Header "🎯 AI Analysis"; Button "🚀 Analyze Text"; Spinner "Analyzing..."].

(** How one run of the script ends, from the service state [s]. *)
Inductive page_run {K : sdk} (i : inputs) (s : service K) : world K -> Prop :=
| page_prompt ev :
    all_present i = false ->
    ev = (if nonempty (user_text i)
          then Warning [Lit "⚠️ Please enter Azure credentials in the sidebar"]
          else Info [Lit "👈 Enter text to analyze"]) ->
    page_run i s (World s [] [Header "🎯 AI Analysis"; ev])
| page_waiting :
    all_present i = true ->
    analyze_clicked i = false ->
    page_run i s
      (World s [] [Header "🎯 AI Analysis"; Button "🚀 Analyze Text"])
| page_client_failed e :
    all_present i = true ->
    analyze_clicked i = true ->
    client_init K (endpoint i) (api_key i) = Some e ->
    page_run i s (World s [] (page_top ++ fatal_error e))
| page_cycle cs es s' :
    all_present i = true ->
    analyze_clicked i = true ->
    client_init K (endpoint i) (api_key i) = None ->
    cycle_run (Client (endpoint i) (api_key i)) [user_text i] s cs es s' ->
    page_run i s (World s' cs (page_top ++ es)).

(** The calls of a log were issued one after the other: each is answered
    as logged from the state the one before left, and [s_end] is the state
    after the last. *)
Fixpoint sequential (K : sdk) (s : service K) (cs : list call)
  (s_end : service K) : Prop :=
  match cs with
  | [] => s_end = s
  | c :: cs' =>
      let (r, s') :=
        request K (call_op c) (Client (call_endpoint c) (call_key c))
          (call_documents c) s in
      call_result c = r /\ sequential K s' cs' s_end
  end.

(** A service whose answers do not depend on its state. *)
Definition deterministic (K : sdk) : Prop :=
  forall op c documents s s',
    fst (request K op c documents s) = fst (request K op c documents s').

(** ** Mock services *)

(** A service without state that answers each operation with a fixed
    result, whatever the client and the documents. *)
Definition mock (answers : operation -> exn + pyval) : sdk :=
  Sdk unit (fun _ _ => None) (fun op _ _ s => (answers op, s)) (fun _ => None).

Definition doc (attrs : list (string * pyval)) : exn + pyval :=
  inr (PList [PObj attrs]).

Definition sentiment_doc (label : pyval) (pos neg neu : pyval) : exn + pyval :=
  doc [("sentiment", label);
       ("confidence_scores",
        PObj [("positive", pos); ("negative", neg); ("neutral", neu)])].

Definition entity (text category : string) (score : Q) : pyval :=
  PObj [("text", PStr text); ("category", PStr category);
        ("confidence_score", PFloat score)].

(** The mocked responses of the first example scenario of the spec. *)
Definition love_text : string := "I absolutely love this product!".

Definition love_answers (op : operation) : exn + pyval :=
  match op with
  | AnalyzeSentiment =>
      sentiment_doc (PStr "positive")
        (PFloat (95 # 100)) (PFloat (2 # 100)) (PFloat (3 # 100))
  | ExtractKeyPhrases => doc [("key_phrases", PList [PStr "product"])]
  | DetectLanguage =>
      doc [("primary_language",
            PObj [("name", PStr "English"); ("iso6391_name", PStr "en");
                  ("confidence_score", PFloat (99 # 100))])]
  | RecognizeEntities => doc [("entities", PList [])]
  | RecognizePiiEntities =>
      doc [("entities", PList []); ("redacted_text", PStr love_text)]
  end.

Definition love_inputs : inputs :=
  Inputs "https://example.cognitiveservices.azure.com/" "secret" love_text true.

(** The second example scenario of the spec: the sentiment call is
    rejected with 401. *)
Definition unauthorized : exn :=
  ServiceError "ClientAuthenticationError" "(401) Access denied".

Definition unauthorized_answers (op : operation) : exn + pyval :=
  match op with
  | AnalyzeSentiment => inl unauthorized
  | _ => love_answers op
  end.

(** The language is not supported by the PII operation. *)
Definition unsupported : exn :=
  ServiceError "HttpResponseError" "(UnsupportedLanguageCode)".

Definition pii_fails_answers (op : operation) : exn + pyval :=
  match op with
  | RecognizePiiEntities => inl unsupported
  | _ => love_answers op
  end.

(** A service with state: it counts the requests it has answered. *)
Definition counting_mock (answers : operation -> exn + pyval) : sdk :=
  Sdk nat (fun _ _ => None) (fun op _ _ n => (answers op, S n))
    (fun _ => None).

(** A service whose answer to the sentiment call changes with its state:
    the first request is answered, later ones are refused. *)
Definition throttled_mock : sdk :=
  Sdk nat (fun _ _ => None)
    (fun op _ _ n =>
       (match n with
        | 0 => love_answers op
        | S _ => match op with
                 | AnalyzeSentiment =>
                     inl (ServiceError "HttpResponseError" "(429)")
                 | _ => love_answers op
                 end
        end, S n))
    (fun _ => None).

(** A provider that answers the sentiment call with a label outside the
    four values and with scores outside [0,1]. *)
Definition odd_scores : list (string * pyval) :=
  [("positive", PFloat (3 # 2)); ("negative", PFloat (- 1 # 2));
   ("neutral", PFloat (7 # 1))].

Definition odd_sentiment : list (string * pyval) :=
  [("sentiment", PStr "surprised"); ("confidence_scores", PObj odd_scores)].

Definition odd_answers (op : operation) : exn + pyval :=
  match op with
  | AnalyzeSentiment => doc odd_sentiment
  | _ => love_answers op
  end.

(** Twelve key phrases and eleven entities. *)
Definition twelve_phrases : list pyval :=
  map PStr ["a"; "b"; "c"; "d"; "e"; "f"; "g"; "h"; "i"; "j"; "k"; "l"].

Definition eleven_entities : list pyval :=
  map (fun t => entity t "Location" (9 # 10))
    ["a"; "b"; "c"; "d"; "e"; "f"; "g"; "h"; "i"; "j"; "k"].

Definition many_answers (op : operation) : exn + pyval :=
  match op with
  | ExtractKeyPhrases => doc [("key_phrases", PList twelve_phrases)]
  | RecognizeEntities => doc [("entities", PList eleven_entities)]
  | _ => love_answers op
  end.

(** A PII answer with one entity and without the redacted text. *)
Definition john : pyval :=
  PList [PObj [("entities",
                PList [PObj [("category", PStr "Person");
                             ("text", PStr "John")]])]].

Definition john_answers (op : operation) : exn + pyval :=
  match op with
  | RecognizePiiEntities => inr john
  | _ => love_answers op
  end.

(** A PII answer with one entity and the redacted text. *)
Definition john_redacted_answers (op : operation) : exn + pyval :=
  match op with
  | RecognizePiiEntities =>
      doc [("entities",
            PList [PObj [("category", PStr "Person"); ("text", PStr "John")]]);
           ("redacted_text", PStr "**** loves this product!")]
  | _ => love_answers op
  end.

(** The key is missing. *)
Definition no_key_inputs : inputs :=
  Inputs "https://example.cognitiveservices.azure.com/" EmptyString love_text
    true.

(** The runs of the examples, and the calls found in their logs. *)
Definition love_call (answers : operation -> exn + pyval) (op : operation)
  : call :=
  logged (Client (endpoint love_inputs) (api_key love_inputs)) [love_text] op
    (answers op).

Definition love_run : (exn + unit) * world (mock love_answers) :=
  run (mock love_answers) love_inputs tt.

Definition unauthorized_run
  : (exn + unit) * world (mock unauthorized_answers) :=
  run (mock unauthorized_answers) love_inputs tt.

Definition pii_fails_run : (exn + unit) * world (mock pii_fails_answers) :=
  run (mock pii_fails_answers) love_inputs tt.

Definition odd_run : (exn + unit) * world (mock odd_answers) :=
  run (mock odd_answers) love_inputs tt.

Definition john_run : (exn + unit) * world (mock john_answers) :=
  run (mock john_answers) love_inputs tt.

(** The display of that PII answer on an empty screen. *)
Definition john_display : (exn + unit) * world (mock john_answers) :=
  show_pii john (World (K := mock john_answers) tt [] []).

Definition many_run : (exn + unit) * world (mock many_answers) :=
  run (mock many_answers) love_inputs tt.

Definition no_key_run : (exn + unit) * world (mock love_answers) :=
  run (mock love_answers) no_key_inputs tt.

(** ** The blocks by operation *)

(** The display that follows the call of an operation. *)
Definition show_of {K : sdk} (op : operation) (response : pyval) : M K unit :=
  match op with
  | AnalyzeSentiment => show_sentiment response
  | ExtractKeyPhrases => show_key_phrases response
  | DetectLanguage => show_language response
  | RecognizeEntities => show_entities response
  | RecognizePiiEntities => show_pii response
  end.

Arguments show_of {K} op response w.

(** The subheader that precedes the call of an operation. *)
Definition title_of (op : operation) : string :=
  match op with
  | AnalyzeSentiment => "😊 Sentiment Analysis"
  | ExtractKeyPhrases => "🔑 Key Phrases"
  | DetectLanguage => "🌍 Language"
  | RecognizeEntities => "🏷️ Named Entities"
  | RecognizePiiEntities => pii_title
  end.

Definition operation_eqb (a b : operation) : bool :=
  match a, b with
  | AnalyzeSentiment, AnalyzeSentiment
  | ExtractKeyPhrases, ExtractKeyPhrases
  | DetectLanguage, DetectLanguage
  | RecognizeEntities, RecognizeEntities
  | RecognizePiiEntities, RecognizePiiEntities => true
  | _, _ => false
  end.

(** The operation that comes after [op] in a list of operations. *)
Fixpoint next_in (ops : list operation) (op : operation) : option operation :=
  match ops with
  | [] => None
  | a :: rest =>
      match rest with
      | [] => None
      | b :: _ => if operation_eqb a op then Some b else next_in rest op
      end
  end.

Definition next_op (op : operation) : option operation :=
  next_in op_sequence op.

(** The blocks of a list show what [show_of] shows, under the subheader
    [title_of] gives. *)
Definition by_operation {K : sdk} (b : block K) : Prop :=
  block_title b = title_of (block_op b) /\
  forall v w, block_show b v w = show_of (block_op b) v w.

(** An entity of which line 143 to 147 can build a row. *)
Definition has_attr (v : pyval) (name : string) : bool :=
  match getattr v name with
  | inr _ => true
  | inl _ => false
  end.

Definition entity_ok (entity : pyval) : bool :=
  has_attr entity "text" && has_attr entity "category" &&
  match getattr entity "confidence_score" with
  | inr x => percent_ok x
  | inl _ => false
  end.

(** ** The rest of the page, lines 10 to 61 and 189 to 201 *)

Definition options : list string :=
  ["Custom"; "Product Review"; "Customer Feedback"; "News Article";
   "Social Media"].

Definition samples : list (string * string) :=
  [("Product Review",
    "I absolutely love this product! The quality is amazing and the customer service was excellent. Highly recommended!");
   ("Customer Feedback",
    "The service was okay but the wait time was too long. The staff tried their best though.");
   ("News Article",
    "Microsoft announced a new AI breakthrough in natural language processing today in Redmond, Washington.");
   ("Social Media",
    "Just had the worst experience ever at the restaurant. Never going back! 😡")].

(** What can end the script before its last line: the lookup of line 47, or
    an exception that leaves the right column. *)
Inductive page_exn : Type :=
| KeyError (key : string)
| Uncaught (e : exn).

(** Lines 46 to 49. *)
Definition default_text (sample_choice : string) : page_exn + string :=
  if negb (String.eqb sample_choice "Custom") then
    match assoc sample_choice samples with
    | Some sample => inr sample
    | None => inl (KeyError sample_choice)
    end
  else inr EmptyString.

Inductive side_widget : Type :=
| SideHeader (s : string)
| SideTextInput (label value type : string)
| SideMarkdown (s : string)
| SideSelectbox (label : string) (choices : list string)
| SideCaption (s : string).

(** The widgets of the page; those of the right column are the [event]s of
    the analysis.  [Caption s] is the caption of line 60 for the text [s],
    which shows [len(s)]. *)
Inductive widget : Type :=
| SetPageConfig (page_title page_icon layout : string)
| Title (s : string)
| Text (s : string)
| Sidebar (sw : side_widget)
| PageColumns (spec : list nat)
| InputHeader (s : string)
| TextArea (label value : string) (height : nat) (placeholder : string)
| Caption (s : string)
| Analysis (ev : event).

(** What the user has done on the page: the two credentials typed in the
    sidebar, the sample chosen, the text typed into the text area if it was
    edited (it holds its default value until then), and the button. *)
Record page_inputs : Type := PageInputs {
  typed_endpoint : string;
  typed_key : string;
  sample_choice : string;
  typed_text : option string;
  pressed : bool
}.

(** Lines 10 to 43. *)
Definition page_head : list widget :=
  [SetPageConfig "Text Analytics AI" "📊" "wide";
   Title "📊 Azure Text Analytics Dashboard";
   Text "Analyze any text with AI - sentiment, entities, languages, and more!";
   Sidebar (SideHeader "⚙️ Azure Settings");
   Sidebar (SideTextInput "Endpoint" EmptyString "default");
   Sidebar (SideTextInput "API Key" EmptyString "password");
   Sidebar (SideMarkdown "---");
   Sidebar (SideMarkdown "### 📝 Try Sample Texts");
   Sidebar (SideSelectbox "Select a sample:" options);
   PageColumns [1; 1];
   InputHeader "📝 Input Text"].

Definition newline : string := String "010"%char EmptyString.

(** Lines 189 to 201. *)
Definition page_foot : list widget :=
  [Sidebar (SideMarkdown "---");
   Sidebar (SideMarkdown "### 📚 Features");
   Sidebar (SideMarkdown
              (newline ++ "- 😊 Sentiment Analysis" ++
               newline ++ "- 🔑 Key Phrase Extraction" ++
               newline ++ "- 🌍 Language Detection" ++
               newline ++ "- 🏷️ Named Entity Recognition" ++
               newline ++ "- 🔒 PII Detection" ++ newline));
   Sidebar (SideMarkdown "---");
   Sidebar (SideCaption "Built with Streamlit & Azure AI")].

(** The value of the text area, line 51. *)
Definition text_of (p : page_inputs) (default : string) : string :=
  match typed_text p with
  | Some t => t
  | None => default
  end.

(** Lines 51 to 60. *)
Definition input_column (default user_text : string) : list widget :=
  TextArea "Enter text to analyze:" default 200
    "Type or paste your text here..."
  :: (if nonempty user_text then [Caption user_text] else []).

(** What a run of the whole script leaves: the state of the service, the
    calls made and the widgets rendered. *)
Record rendered (K : sdk) : Type := Rendered {
  page_svc : service K;
  page_calls : list call;
  page_widgets : list widget
}.

Arguments Rendered {K} page_svc page_calls page_widgets.
Arguments page_svc {K} r.
Arguments page_calls {K} r.
Arguments page_widgets {K} r.

(** The whole script.  An exception outside the [try] of the right column
    ends the script where it is raised. *)
Definition page (K : sdk) (p : page_inputs) (s : service K)
  : (page_exn + unit) * rendered K :=
  match default_text (sample_choice p) with
  | inl e => (inl e, Rendered s [] page_head)
  | inr default =>
      let user_text := text_of p default in
      let i := Inputs (typed_endpoint p) (typed_key p) user_text (pressed p) in
      let (r, w) := run K i s in
      let shown :=
        page_head ++ input_column default user_text
        ++ map Analysis (screen w) in
      match r with
      | inl e => (inl (Uncaught e), Rendered (svc w) (calls w) shown)
      | inr _ => (inr tt, Rendered (svc w) (calls w) (shown ++ page_foot))
      end
  end.

(** ** More mock services *)

(** A client whose constructor rejects the endpoint. *)
Definition bad_endpoint : exn :=
  ServiceError "ValueError" "Invalid URL".

Definition no_client_mock : sdk :=
  Sdk unit (fun _ _ => Some bad_endpoint)
    (fun op _ _ s => (love_answers op, s)) (fun _ => None).

(** The sentiment call answers with an empty batch. *)
Definition empty_batch_answers (op : operation) : exn + pyval :=
  match op with
  | AnalyzeSentiment => inr (PList [])
  | _ => love_answers op
  end.

(** The language answer lacks the confidence score. *)
Definition no_confidence_answers (op : operation) : exn + pyval :=
  match op with
  | DetectLanguage =>
      doc [("primary_language",
            PObj [("name", PStr "English"); ("iso6391_name", PStr "en")])]
  | _ => love_answers op
  end.

(** Ten entities as they should be and an eleventh that is [None]. *)
Definition ten_entities_and_none : list pyval :=
  firstn 10 eleven_entities ++ [PNone].

(** Twelve PII entities and the redacted text. *)
Definition twelve_pii : list pyval :=
  map (fun t => PObj [("category", PStr "Person"); ("text", PStr t)])
    ["a"; "b"; "c"; "d"; "e"; "f"; "g"; "h"; "i"; "j"; "k"; "l"].

Definition twelve_pii_rows : list row :=
  map (fun t => [("Type", CVal (PStr "Person")); ("Text", CVal (PStr t))])
    ["a"; "b"; "c"; "d"; "e"; "f"; "g"; "h"; "i"; "j"; "k"; "l"].

Definition twelve_pii_attrs : list (string * pyval) :=
  [("entities", PList twelve_pii); ("redacted_text", PStr "****")].

Definition twelve_pii_answers (op : operation) : exn + pyval :=
  match op with
  | RecognizePiiEntities => doc twelve_pii_attrs
  | _ => love_answers op
  end.

(** The same service under a [st.dataframe] that refuses every table. *)
Definition unconvertible : exn :=
  ValueError "Could not convert the data to an Arrow table".

Definition refusing_frames (answers : operation -> exn + pyval) : sdk :=
  Sdk unit (fun _ _ => None) (fun op _ _ s => (answers op, s))
    (fun _ => Some unconvertible).

(** A key phrase that is markup. *)
Definition markup_phrase : string := "<b>product</b>".

Definition markup_answers (op : operation) : exn + pyval :=
  match op with
  | ExtractKeyPhrases => doc [("key_phrases", PList [PStr markup_phrase])]
  | _ => love_answers op
  end.

Definition no_click_inputs : inputs :=
  Inputs "https://example.cognitiveservices.azure.com/" "secret" love_text
    false.

(** The user has typed the credentials, chosen a sample and pressed the
    button. *)
Definition review_page : page_inputs :=
  PageInputs "https://example.cognitiveservices.azure.com/" "secret"
    "Product Review" None true.

(** The user has typed the credentials only. *)
Definition custom_page : page_inputs :=
  PageInputs "https://example.cognitiveservices.azure.com/" "secret"
    "Custom" None true.

(** The runs of these examples. *)
Definition no_click_run : (exn + unit) * world (mock love_answers) :=
  run (mock love_answers) no_click_inputs tt.

Definition empty_batch_run : (exn + unit) * world (mock empty_batch_answers) :=
  run (mock empty_batch_answers) love_inputs tt.

Definition no_confidence_run
  : (exn + unit) * world (mock no_confidence_answers) :=
  run (mock no_confidence_answers) love_inputs tt.

Definition twelve_pii_run : (exn + unit) * world (mock twelve_pii_answers) :=
  run (mock twelve_pii_answers) love_inputs tt.

Definition markup_run : (exn + unit) * world (mock markup_answers) :=
  run (mock markup_answers) love_inputs tt.

Definition review_rendered : (page_exn + unit) * rendered (mock love_answers) :=
  page (mock love_answers) review_page tt.

Definition review_text : string :=
  "I absolutely love this product! The quality is amazing and the customer service was excellent. Highly recommended!".

(** * Properties *)

(** ** The monad *)

Section Monad.

Variable K : sdk.

Lemma world_eta (w : world K) : World (svc w) (calls w) (screen w) = w.
Proof. destruct w; reflexivity. Qed.

Lemma bind_emit {B : Type} (ev : event) (k : unit -> M K B) (w : world K) :
  bind (emit ev) k w = k tt (World (svc w) (calls w) (screen w ++ [ev])).
Proof. reflexivity. Qed.

Lemma bind_assoc {A B C : Type} (m : M K A) (k : A -> M K B) (h : B -> M K C)
  (w : world K) :
  bind (bind m k) h w = bind m (fun a => bind (k a) h) w.
Proof.
  unfold bind. destruct (m w) as [[e | a] w']; reflexivity.
Qed.

Lemma quiet_ret {A : Type} (a : A) : quiet (K := K) (ret a).
Proof.
  exists (inr a), []. split; [reflexivity |].
  intros w. unfold ret. rewrite app_nil_r, world_eta. reflexivity.
Qed.

Lemma quiet_lift {A : Type} (r : exn + A) : quiet (K := K) (lift r).
Proof.
  exists r, []. split; [reflexivity |].
  intros w. unfold lift. rewrite app_nil_r, world_eta. reflexivity.
Qed.

Lemma quiet_emit (ev : event) : plain ev = true -> quiet (K := K) (emit ev).
Proof.
  intros Hev. exists (inr tt), [ev]. split.
  - simpl. rewrite Hev. reflexivity.
  - reflexivity.
Qed.

Lemma quiet_bind {A B : Type} (m : M K A) (k : A -> M K B) :
  quiet m -> (forall a, quiet (k a)) -> quiet (bind m k).
Proof.
  intros (r & es & Hes & Hm) Hk.
  destruct r as [e | a].
  - exists (inl e), es. split; [exact Hes |].
    intros w. unfold bind. rewrite Hm. reflexivity.
  - destruct (Hk a) as (r' & es' & Hes' & Hka).
    exists r', (es ++ es'). split.
    + rewrite forallb_app, Hes, Hes'. reflexivity.
    + intros w. unfold bind. rewrite Hm, Hka. simpl.
      rewrite app_assoc. reflexivity.
Qed.

Lemma quiet_if {A : Type} (b : bool) (m1 m2 : M K A) :
  quiet m1 -> quiet m2 -> quiet (if b then m1 else m2).
Proof. destruct b; auto. Qed.

Lemma quiet_raise {A : Type} (e : exn) : quiet (K := K) (A := A) (raise e).
Proof. exact (quiet_lift (inl e)). Qed.

Lemma quiet_st_dataframe (data : list row) : quiet (K := K) (st_dataframe data).
Proof.
  unfold st_dataframe. destruct (dataframe_error K data).
  - apply quiet_raise.
  - apply quiet_emit. reflexivity.
Qed.

Lemma quiet_st_code (body : pyval) : quiet (K := K) (st_code body).
Proof.
  unfold st_code. destruct (str body).
  - apply quiet_raise.
  - apply quiet_emit. reflexivity.
Qed.

End Monad.

Create HintDb quiet.
#[export] Hint Resolve quiet_ret quiet_lift quiet_bind quiet_if
  quiet_st_dataframe quiet_st_code : quiet.
#[export] Hint Extern 1 (quiet (emit _)) =>
  apply quiet_emit; reflexivity : quiet.

Section Blocks.

Variable K : sdk.

Lemma quiet_show_sentiment (v : pyval) : quiet (K := K) (show_sentiment v).
Proof. unfold show_sentiment. auto 30 with quiet. Qed.

Lemma quiet_show_key_phrases (v : pyval) : quiet (K := K) (show_key_phrases v).
Proof. unfold show_key_phrases. auto 30 with quiet. Qed.

Lemma quiet_show_language (v : pyval) : quiet (K := K) (show_language v).
Proof. unfold show_language. auto 30 with quiet. Qed.

Lemma quiet_show_entities (v : pyval) : quiet (K := K) (show_entities v).
Proof. unfold show_entities. auto 30 with quiet. Qed.

Lemma quiet_show_pii (v : pyval) : quiet (K := K) (show_pii v).
Proof. unfold show_pii. auto 30 with quiet. Qed.

End Blocks.

(** ** From the script to the run relations *)

Section Runs.

Variable K : sdk.
Variable c : client.
Variable documents : list string.

Lemma quiet_shows {A : Type} (m : M K A) :
  quiet m -> exists r es, forallb plain es = true /\ shows m r es.
Proof. intros (r & es & Hes & Hm). exists r, es. split; assumption. Qed.

Lemma run_block_request (b : block K) (w : world K) :
  run_block c documents b w =
  match request K (block_op b) c documents (svc w) with
  | (inl e, s') =>
      (inl e,
       World s' (calls w ++ [logged c documents (block_op b) (inl e)])
         (screen w ++ [Subheader (block_title b)]))
  | (inr v, s') =>
      block_show b v
        (World s' (calls w ++ [logged c documents (block_op b) (inr v)])
           (screen w ++ [Subheader (block_title b)]))
  end.
Proof.
  unfold run_block, bind, emit, client_call, logged. simpl.
  destruct (request K (block_op b) c documents (svc w)) as [[e | v] s'];
    reflexivity.
Qed.

Lemma run_blocks_sound (bs : list (block K)) :
  Forall (fun b => forall v, quiet (block_show b v)) bs ->
  forall w, exists r cs es s',
    blocks_run c documents bs (svc w) r cs es s' /\
    run_blocks c documents bs w
      = (r, World s' (calls w ++ cs) (screen w ++ es)).
Proof.
  induction 1 as [| b bs Hb _ IH]; intros w.
  - exists (inr tt), [], [], (svc w). split; [constructor |].
    simpl. unfold ret. rewrite !app_nil_r, world_eta. reflexivity.
  - simpl. unfold bind at 1. rewrite run_block_request.
    destruct (request K (block_op b) c documents (svc w)) as [[e | v] s'] eqn:Hreq.
    + exists (inl e), [logged c documents (block_op b) (inl e)],
        [Subheader (block_title b)], s'.
      split; [now constructor | reflexivity].
    + destruct (quiet_shows _ (Hb v)) as (r & es & Hes & Hshow).
      rewrite Hshow. simpl. destruct r as [e | []].
      * exists (inl e), [logged c documents (block_op b) (inr v)],
          (Subheader (block_title b) :: es), s'.
        split; [now apply run_show_failed |].
        rewrite <- app_assoc. reflexivity.
      * match goal with |- context [run_blocks _ _ _ ?w1] =>
          destruct (IH w1) as (r & cs & es' & s'' & Hrun & Heq) end.
        simpl in Hrun. rewrite Heq. simpl.
        exists r, (logged c documents (block_op b) (inr v) :: cs),
          (Subheader (block_title b) :: es ++ es'), s''.
        split; [now apply run_next with (s' := s') |].
        rewrite <- !app_assoc. reflexivity.
Qed.

Lemma run_blocks_then (bs : list (block K)) (m : M K unit) (w : world K) :
  fold_right (fun b k => run_block c documents b ;; k) m bs w
  = (run_blocks c documents bs ;; m) w.
Proof.
  revert w. induction bs as [| b bs IH]; intros w; simpl.
  - reflexivity.
  - rewrite bind_assoc. unfold bind at 1 3.
    destruct (run_block c documents b w) as [[e | []] w']; [reflexivity |].
    apply IH.
Qed.

Lemma quiet_first_four :
  Forall (fun b : block K => forall v, quiet (block_show b v)) (first_four K).
Proof.
  repeat constructor; simpl; intros v.
  - apply quiet_show_sentiment.
  - apply quiet_show_key_phrases.
  - apply quiet_show_language.
  - apply quiet_show_entities.
Qed.

Lemma pii_detection_run (w : world K) :
  exists ans s' pes,
    request K RecognizePiiEntities c documents (svc w) = (ans, s') /\
    pii_shown (K := K) ans pes /\
    pii_detection c documents w
      = (inr tt,
         World s' (calls w ++ [logged c documents RecognizePiiEntities ans])
           (screen w ++ Subheader pii_title :: pes)).
Proof.
  unfold pii_detection, pii_body, try_except, bind, emit, client_call, logged.
  simpl.
  destruct (request K RecognizePiiEntities c documents (svc w))
    as [[e | v] s'] eqn:Hreq.
  - exists (inl e), s', [Info pii_unavailable].
    split; [reflexivity | split; [constructor |]].
    simpl. rewrite <- app_assoc. reflexivity.
  - destruct (quiet_shows _ (quiet_show_pii K v)) as (r & es & Hes & Hshow).
    rewrite Hshow. simpl. destruct r as [e | []].
    + exists (inr v), s', (es ++ [Info pii_unavailable]).
      split; [reflexivity | split; [now apply pii_show_failed with (e := e) |]].
      simpl. rewrite <- !app_assoc. reflexivity.
    + exists (inr v), s', es.
      split; [reflexivity | split; [now apply pii_show_done |]].
      rewrite <- app_assoc. reflexivity.
Qed.

End Runs.

Section Cycle.

Variable K : sdk.

(** The outer [try] block, once the client exists. *)
Lemma steps_run (c : client) (documents : list string) (w : world K) :
  exists cs es s',
    cycle_run c documents (svc w) cs es s' /\
    try_except
      (sentiment_analysis c documents ;;
       key_phrases c documents ;;
       language_detection c documents ;;
       named_entities c documents ;;
       pii_detection c documents)
      (fun e => emit (Error [Lit "❌ Error: "; StrExn e]) ;;
                emit (Info credentials_hint)) w
    = (inr tt, World s' (calls w ++ cs) (screen w ++ es)).
Proof.
  unfold try_except.
  change ((sentiment_analysis c documents ;;
           key_phrases c documents ;;
           language_detection c documents ;;
           named_entities c documents ;;
           pii_detection c documents) w)
    with (fold_right (fun b k => run_block c documents b ;; k)
            (pii_detection c documents) (first_four K) w).
  rewrite run_blocks_then. unfold bind at 1.
  destruct (run_blocks_sound K c documents _ (quiet_first_four K) w)
    as (r & cs & es & s' & Hrun & Heq).
  rewrite Heq. destruct r as [e | []].
  - exists cs, (es ++ fatal_error e), s'.
    split; [now constructor |].
    unfold bind, emit, fatal_error. simpl.
    rewrite <- !app_assoc. reflexivity.
  - match goal with |- context [pii_detection _ _ ?w1] =>
      destruct (pii_detection_run K c documents w1)
        as (ans & s'' & pes & Hreq & Hshown & Hpii) end.
    simpl in Hreq. rewrite Hpii. simpl.
    exists (cs ++ [logged c documents RecognizePiiEntities ans]),
      (es ++ Subheader pii_title :: pes), s''.
    split; [now apply cycle_passed with (s' := s') |].
    rewrite <- !app_assoc. reflexivity.
Qed.

End Cycle.

Section Page.

Variable K : sdk.

(** Every run of the script ends normally, in one of the four ways of
    [page_run]. *)
Lemma run_page (i : inputs) (s : service K) :
  exists w, run K i s = (inr tt, w) /\ page_run i s w.
Proof.
  unfold run, ai_analysis. rewrite bind_emit. simpl.
  fold (all_present i).
  destruct (all_present i) eqn:Hall.
  - rewrite bind_emit. simpl.
    destruct (analyze_clicked i) eqn:Hclick.
    + unfold analyze. rewrite bind_emit. simpl.
      unfold analysis, TextAnalyticsClient.
      destruct (client_init K (endpoint i) (api_key i)) as [e |] eqn:Hinit.
      * eexists. split; [reflexivity |].
        apply page_client_failed with (e := e); assumption.
      * match goal with |- context [try_except _ _ ?w1] =>
          destruct (steps_run K (Client (endpoint i) (api_key i))
                      [user_text i] w1) as (cs & es & s' & Hcycle & Heq) end.
        simpl in Hcycle.
        unfold try_except in *. unfold bind at 1. unfold ret at 1.
        unfold try_except in Heq. rewrite Heq.
        eexists. split; [reflexivity |].
        apply (page_cycle i s cs es s'); assumption.
    + eexists. split; [reflexivity |]. now apply page_waiting.
  - destruct (nonempty (user_text i)) eqn:Htext.
    + eexists. split; [reflexivity |].
      apply page_prompt; [assumption | rewrite Htext; reflexivity].
    + eexists. split; [reflexivity |].
      apply page_prompt; [assumption | rewrite Htext; reflexivity].
Qed.

End Page.

(** ** Properties of the run relations *)

Section RunFacts.

Variable K : sdk.
Variable c : client.
Variable documents : list string.

Lemma client_eta : Client (client_endpoint c) (client_key c) = c.
Proof. destruct c; reflexivity. Qed.

Lemma shows_fresh {A : Type} (m : M K A) (r : exn + A) (es : list event)
  (s : service K) :
  shows m r es -> m (World s [] []) = (r, World s [] es).
Proof. intros H. rewrite H. reflexivity. Qed.

Lemma shows_unique {A : Type} (m : M K A) (r r' : exn + A)
  (es es' : list event) (s : service K) :
  shows m r es -> shows m r' es' -> r = r' /\ es = es'.
Proof.
  intros H H'. pose proof (H (World s [] [])) as E.
  rewrite (H' (World s [] [])) in E. simpl in E.
  inversion E. split; reflexivity.
Qed.

Lemma blocks_run_plain bs s r cs es s' :
  blocks_run (K := K) c documents bs s r cs es s' ->
  Forall (fun b => plain (Subheader (block_title b)) = true) bs ->
  forallb plain es = true.
Proof.
  induction 1 as [| b bs s e s' _ | b bs s v s' e es _ _ Hes
                  | b bs s v s' es r cs es' s'' _ _ Hes _ IH];
    intros Hbs; try reflexivity.
  - inversion Hbs; subst. simpl. rewrite H1. reflexivity.
  - inversion Hbs; subst. simpl. rewrite H1, Hes. reflexivity.
  - inversion Hbs; subst. simpl. rewrite forallb_app, H1, Hes, IH by assumption.
    reflexivity.
Qed.

Lemma blocks_run_ops bs s r cs es s' :
  blocks_run (K := K) c documents bs s r cs es s' ->
  exists n, map call_op cs = firstn n (map block_op bs).
Proof.
  induction 1 as [| b bs s e s' _ | b bs s v s' e es _ _ _
                  | b bs s v s' es r cs es' s'' _ _ _ _ [n IH]].
  - exists 0. reflexivity.
  - exists 1. reflexivity.
  - exists 1. reflexivity.
  - exists (S n). simpl. rewrite IH. reflexivity.
Qed.

Lemma blocks_run_passed bs s cs es s' :
  blocks_run (K := K) c documents bs s (inr tt) cs es s' ->
  map call_op cs = map block_op bs /\
  Forall (fun c' => exists v, call_result c' = inr v) cs.
Proof.
  intros H. remember (inr tt) as r eqn:Hr. revert Hr.
  induction H as [| b bs s e s' _ | b bs s v s' e es _ _ _
                  | b bs s v s' es r cs es' s'' _ _ _ _ IH];
    intros Hr; try discriminate.
  - split; constructor.
  - destruct (IH Hr) as [Hops Hres]. split.
    + simpl. rewrite Hops. reflexivity.
    + constructor; [exists v; reflexivity | exact Hres].
Qed.

Lemma blocks_run_failed_call bs s r cs es s' (c' : call) (e : exn) :
  blocks_run (K := K) c documents bs s r cs es s' ->
  In c' cs -> call_result c' = inl e ->
  r = inl e /\ exists before, cs = before ++ [c'].
Proof.
  induction 1 as [| b bs s e0 s' _ | b bs s v s' e0 es _ _ _
                  | b bs s v s' es r cs es' s'' _ _ _ _ IH];
    intros Hin Hres.
  - destruct Hin.
  - destruct Hin as [<- | []]. simpl in Hres. inversion Hres; subst.
    split; [reflexivity | exists []; reflexivity].
  - destruct Hin as [<- | []]. discriminate.
  - destruct Hin as [<- | Hin]; [discriminate |].
    destruct (IH Hin Hres) as [-> [before ->]].
    split; [reflexivity |].
    exists (logged c documents (block_op b) (inr v) :: before). reflexivity.
Qed.

Lemma blocks_run_issued bs s r cs es s' :
  blocks_run (K := K) c documents bs s r cs es s' ->
  Forall (fun c' => call_documents c' = documents /\
                    call_endpoint c' = client_endpoint c /\
                    call_key c' = client_key c) cs.
Proof.
  induction 1; repeat constructor; assumption.
Qed.

Lemma blocks_run_sequential bs s r cs es s' :
  blocks_run (K := K) c documents bs s r cs es s' ->
  sequential K s cs s'.
Proof.
  induction 1 as [| b bs s e s' Hreq | b bs s v s' e es Hreq _ _
                  | b bs s v s' es r cs es' s'' Hreq _ _ _ IH];
    simpl; try rewrite client_eta; try rewrite Hreq; auto.
Qed.

Lemma sequential_app (s s1 s2 : service K) (cs1 cs2 : list call) :
  sequential K s cs1 s1 -> sequential K s1 cs2 s2 ->
  sequential K s (cs1 ++ cs2) s2.
Proof.
  revert s. induction cs1 as [| c1 cs1 IH]; intros s; simpl.
  - intros ->. auto.
  - destruct (request K (call_op c1)
                (Client (call_endpoint c1) (call_key c1))
                (call_documents c1) s) as [r s'].
    intros [Hr H1] H2. split; [exact Hr | now apply IH].
Qed.

(** The answer of a call that was displayed is on the screen as its block
    shows it. *)
Lemma blocks_run_shown bs s r cs es s' (c' : call) (v : pyval) :
  blocks_run (K := K) c documents bs s r cs es s' ->
  In c' cs -> call_result c' = inr v ->
  exists b r0 es0,
    In b bs /\ block_op b = call_op c' /\
    shows (block_show b v) r0 es0 /\ incl es0 es /\
    (r = inr tt -> r0 = inr tt).
Proof.
  induction 1 as [| b bs s e0 s' _ | b bs s v0 s' e0 es _ Hshow _
                  | b bs s v0 s' es r cs es' s'' _ Hshow _ _ IH];
    intros Hin Hres.
  - destruct Hin.
  - destruct Hin as [<- | []]. discriminate.
  - destruct Hin as [<- | []]. simpl in Hres. inversion Hres; subst.
    exists b, (inl e0), es. repeat split.
    + left; reflexivity.
    + exact Hshow.
    + apply incl_tl, incl_refl.
    + discriminate.
  - destruct Hin as [<- | Hin].
    + simpl in Hres. inversion Hres; subst.
      exists b, (inr tt), es. repeat split.
      * left; reflexivity.
      * exact Hshow.
      * apply incl_tl, incl_appl, incl_refl.
    + destruct (IH Hin Hres) as (b' & r0 & es0 & Hb & Hop & Hs & Hincl & Hr).
      exists b', r0, es0. repeat split; try assumption.
      * right; exact Hb.
      * apply incl_tl, incl_appr, Hincl.
Qed.

(** Against a deterministic service the run of the blocks is the same from
    every service state. *)
Lemma blocks_run_deterministic bs s1 r1 cs1 es1 s1' s2 r2 cs2 es2 s2' :
  deterministic K ->
  blocks_run (K := K) c documents bs s1 r1 cs1 es1 s1' ->
  blocks_run (K := K) c documents bs s2 r2 cs2 es2 s2' ->
  r1 = r2 /\ cs1 = cs2 /\ es1 = es2.
Proof.
  intros Hdet H1. revert s2 r2 cs2 es2 s2'.
  induction H1 as [| b bs s e s' Hreq | b bs s v s' e es Hreq Hshow _
                   | b bs s v s' es r cs es' s'' Hreq Hshow _ _ IH];
    intros s2 r2 cs2 es2 s2' H2; inversion H2; subst;
    try (split; [reflexivity | split; reflexivity]);
    match goal with
    | Ha : request K ?op c documents s = (?a, _),
      Hb : request K ?op c documents s2 = (?b, _) |- _ =>
        pose proof (Hdet op c documents s s2) as Hfst;
        rewrite Ha, Hb in Hfst; simpl in Hfst;
        try discriminate Hfst; inversion Hfst; subst
    end;
    repeat match goal with
    | Ha : shows ?m _ _, Hb : shows ?m _ _ |- _ =>
        destruct (shows_unique _ _ _ _ _ s Ha Hb) as [Hr Hes];
        clear Hb; try discriminate Hr; try (inversion Hr; subst)
    end;
    try (split; [reflexivity | split; reflexivity]).
  match goal with
  | Hrest : blocks_run _ _ bs _ _ _ _ _ |- _ =>
      destruct (IH _ _ _ _ _ Hrest) as (-> & -> & ->)
  end.
  split; [reflexivity | split; reflexivity].
Qed.

End RunFacts.

(** ** Reading the screen *)

Lemma plain_no_error (es : list event) :
  forallb plain es = true -> existsb is_error es = false.
Proof.
  induction es as [| ev es IH]; simpl; [reflexivity |].
  intros H. apply andb_prop in H. destruct H as [Hev Hes].
  rewrite (IH Hes). destruct ev; try reflexivity; discriminate.
Qed.

Lemma plain_no_spinner (es : list event) :
  forallb plain es = true -> existsb is_spinner es = false.
Proof.
  induction es as [| ev es IH]; simpl; [reflexivity |].
  intros H. apply andb_prop in H. destruct H as [Hev Hes].
  rewrite (IH Hes). destruct ev; try reflexivity; discriminate.
Qed.

Lemma plain_pii_section (es rest : list event) :
  forallb plain es = true -> pii_section (es ++ rest) = pii_section rest.
Proof.
  induction es as [| ev es IH]; simpl; [reflexivity |].
  intros H. apply andb_prop in H. destruct H as [Hev Hes].
  rewrite (IH Hes). unfold plain in Hev.
  destruct (is_pii_title ev); [| reflexivity].
  rewrite !orb_true_r in Hev. discriminate.
Qed.

Lemma pii_section_title (pes : list event) :
  pii_section (Subheader pii_title :: pes) = Some pes.
Proof. reflexivity. Qed.

Lemma screen_entered (es : list event) :
  entered_requesting (page_top ++ es) = true.
Proof. reflexivity. Qed.

Lemma screen_errors (es tail : list event) :
  forallb plain es = true ->
  existsb is_error (page_top ++ es ++ tail) = existsb is_error tail.
Proof.
  intros H. rewrite !existsb_app, (plain_no_error es H). reflexivity.
Qed.

Lemma screen_pii_section (es tail : list event) :
  forallb plain es = true ->
  pii_section (page_top ++ es ++ tail) = pii_section tail.
Proof.
  intros H. change (pii_section (es ++ tail) = pii_section tail).
  now apply plain_pii_section.
Qed.

Lemma screen_failed (es : list event) (e : exn) :
  forallb plain es = true ->
  final_state (page_top ++ es ++ fatal_error e) = Failed /\
  pii_outcome (page_top ++ es ++ fatal_error e) = NotAttempted.
Proof.
  intros H. unfold final_state, pii_outcome.
  rewrite screen_entered, screen_errors, screen_pii_section by assumption.
  split; reflexivity.
Qed.

Lemma screen_passed (es pes : list event) :
  forallb plain es = true -> forallb plain pes = true ->
  final_state (page_top ++ es ++ Subheader pii_title :: pes) = Succeeded /\
  existsb is_error (page_top ++ es ++ Subheader pii_title :: pes) = false /\
  pii_section (page_top ++ es ++ Subheader pii_title :: pes) = Some pes.
Proof.
  intros H Hp. unfold final_state.
  rewrite screen_entered, screen_errors, screen_pii_section by assumption.
  simpl existsb. rewrite (plain_no_error pes Hp), pii_section_title.
  repeat split; reflexivity.
Qed.

Lemma pii_shown_plain (K : sdk) (ans : exn + pyval) (pes : list event) :
  pii_shown (K := K) ans pes -> forallb plain pes = true.
Proof.
  destruct 1 as [e | v e es _ Hes | v es _ Hes]; try assumption.
  - reflexivity.
  - rewrite forallb_app, Hes. reflexivity.
Qed.

(** ** The shape of a cycle around one call *)

Section CycleFacts.

Variable K : sdk.
Variable c : client.
Variable documents : list string.

Lemma first_four_plain :
  Forall (fun b : block K => plain (Subheader (block_title b)) = true)
    (first_four K).
Proof. repeat constructor. Qed.

Lemma prefix_of_first_four (n : nat) :
  exists m, firstn n (map block_op (first_four K)) = firstn m op_sequence /\
            existsb is_pii_op (firstn n (map block_op (first_four K))) = false.
Proof.
  destruct n as [| [| [| [| n]]]].
  - exists 0. split; reflexivity.
  - exists 1. split; reflexivity.
  - exists 2. split; reflexivity.
  - exists 3. split; reflexivity.
  - exists 4. destruct n; split; reflexivity.
Qed.

(** A failing call among the first four ends the cycle with the error. *)
Lemma cycle_run_failed_call s cs es s' (c' : call) (e : exn) :
  cycle_run (K := K) c documents s cs es s' ->
  In c' cs -> is_pii_op (call_op c') = false -> call_result c' = inl e ->
  exists es4,
    es = es4 ++ fatal_error e /\ forallb plain es4 = true /\
    (exists before, cs = before ++ [c']) /\
    (exists n, map call_op cs = firstn n op_sequence) /\
    existsb is_pii_op (map call_op cs) = false.
Proof.
  destruct 1 as [e0 cs es s' Hrun | cs es s' ans s'' pes Hrun Hreq Hshown];
    intros Hin Hop Hres.
  - destruct (blocks_run_failed_call _ _ _ _ _ _ _ _ _ _ _ Hrun Hin Hres)
      as [He Hlast].
    inversion He; subst e0.
    exists es. split; [reflexivity |].
    split; [exact (blocks_run_plain _ _ _ _ _ _ _ _ _ Hrun first_four_plain) |].
    split; [exact Hlast |].
    destruct (blocks_run_ops _ _ _ _ _ _ _ _ _ Hrun) as [n Hn].
    destruct (prefix_of_first_four n) as (m & Hm & Hpii).
    rewrite Hn. split; [exists m; exact Hm | exact Hpii].
  - apply in_app_or in Hin. destruct Hin as [Hin | [<- | []]].
    + destruct (blocks_run_failed_call _ _ _ _ _ _ _ _ _ _ _ Hrun Hin Hres)
        as [He _].
      discriminate He.
    + discriminate Hop.
Qed.

(** A call that raises is the last call of its cycle. *)
Lemma cycle_run_failed_last s cs es s' (c' : call) (e : exn) :
  cycle_run (K := K) c documents s cs es s' ->
  In c' cs -> call_result c' = inl e ->
  exists before, cs = before ++ [c'].
Proof.
  destruct 1 as [e0 cs es s' Hrun | cs es s' ans s'' pes Hrun Hreq Hshown];
    intros Hin Hres.
  - exact (proj2 (blocks_run_failed_call _ _ _ _ _ _ _ _ _ _ _ Hrun Hin Hres)).
  - apply in_app_or in Hin. destruct Hin as [Hin | [<- | []]].
    + destruct (blocks_run_failed_call _ _ _ _ _ _ _ _ _ _ _ Hrun Hin Hres)
        as [He _].
      discriminate He.
    + exists cs. reflexivity.
Qed.

(** When the PII call is in the log, steps 1 to 4 have passed and the PII
    block shows its answer. *)
Lemma cycle_run_pii_call s cs es s' (c' : call) :
  cycle_run (K := K) c documents s cs es s' ->
  In c' cs -> call_op c' = RecognizePiiEntities ->
  exists es4 pes cs4,
    es = es4 ++ Subheader pii_title :: pes /\ forallb plain es4 = true /\
    pii_shown (K := K) (call_result c') pes /\
    cs = cs4 ++ [c'] /\ map call_op cs = op_sequence.
Proof.
  destruct 1 as [e0 cs es s' Hrun | cs es s' ans s'' pes Hrun Hreq Hshown];
    intros Hin Hop.
  - destruct (blocks_run_ops _ _ _ _ _ _ _ _ _ Hrun) as [n Hn].
    destruct (prefix_of_first_four n) as (m & _ & Hpii).
    apply (in_map call_op) in Hin. rewrite Hn, Hop in Hin.
    assert (existsb is_pii_op (firstn n (map block_op (first_four K))) = true)
      as Habs by (apply existsb_exists; exists RecognizePiiEntities; auto).
    rewrite Hpii in Habs. discriminate.
  - destruct (blocks_run_passed _ _ _ _ _ _ _ _ Hrun) as [Hops _].
    apply in_app_or in Hin. destruct Hin as [Hin | [<- | []]].
    + apply (in_map call_op) in Hin. rewrite Hops, Hop in Hin.
      simpl in Hin. repeat (destruct Hin as [Habs | Hin]; [discriminate |]).
      destruct Hin.
    + exists es, pes, cs. split; [reflexivity |].
      split; [exact (blocks_run_plain _ _ _ _ _ _ _ _ _ Hrun first_four_plain) |].
      split; [exact Hshown |]. split; [reflexivity |].
      rewrite map_app, Hops. reflexivity.
Qed.

End CycleFacts.

(** ** The whole cycle *)

Section CycleShape.

Variable K : sdk.
Variable c : client.
Variable documents : list string.

Lemma cycle_run_ops s cs es s' :
  cycle_run (K := K) c documents s cs es s' ->
  exists n, map call_op cs = firstn n op_sequence.
Proof.
  destruct 1 as [e0 cs es s' Hrun | cs es s' ans s'' pes Hrun Hreq Hshown].
  - destruct (blocks_run_ops _ _ _ _ _ _ _ _ _ Hrun) as [n Hn].
    destruct (prefix_of_first_four K n) as (m & Hm & _).
    exists m. rewrite Hn. exact Hm.
  - destruct (blocks_run_passed _ _ _ _ _ _ _ _ Hrun) as [Hops _].
    exists 5. rewrite map_app, Hops. reflexivity.
Qed.

Lemma cycle_run_issued s cs es s' :
  cycle_run (K := K) c documents s cs es s' ->
  Forall (fun c' => call_documents c' = documents /\
                    call_endpoint c' = client_endpoint c /\
                    call_key c' = client_key c) cs.
Proof.
  destruct 1 as [e0 cs es s' Hrun | cs es s' ans s'' pes Hrun Hreq Hshown].
  - exact (blocks_run_issued _ _ _ _ _ _ _ _ _ Hrun).
  - apply Forall_app. split.
    + exact (blocks_run_issued _ _ _ _ _ _ _ _ _ Hrun).
    + repeat constructor.
Qed.

Lemma cycle_run_sequential s cs es s' :
  cycle_run (K := K) c documents s cs es s' -> sequential K s cs s'.
Proof.
  destruct 1 as [e0 cs es s' Hrun | cs es s' ans s'' pes Hrun Hreq Hshown].
  - exact (blocks_run_sequential _ _ _ _ _ _ _ _ _ Hrun).
  - apply sequential_app with (s1 := s').
    + exact (blocks_run_sequential _ _ _ _ _ _ _ _ _ Hrun).
    + simpl. rewrite client_eta, Hreq. auto.
Qed.

(** A cycle either shows the fatal error after plain widgets, or has made
    the five calls and shows the PII section after plain widgets. *)
Lemma cycle_run_screen s cs es s' :
  cycle_run (K := K) c documents s cs es s' ->
  (exists es4 e, es = es4 ++ fatal_error e /\ forallb plain es4 = true) \/
  (exists es4 pes,
      es = es4 ++ Subheader pii_title :: pes /\ forallb plain es4 = true /\
      forallb plain pes = true /\ map call_op cs = op_sequence).
Proof.
  destruct 1 as [e0 cs es s' Hrun | cs es s' ans s'' pes Hrun Hreq Hshown].
  - left. exists es, e0. split; [reflexivity |].
    exact (blocks_run_plain _ _ _ _ _ _ _ _ _ Hrun (first_four_plain K)).
  - right. exists es, pes. split; [reflexivity |].
    split; [exact (blocks_run_plain _ _ _ _ _ _ _ _ _ Hrun (first_four_plain K)) |].
    split; [exact (pii_shown_plain K _ _ Hshown) |].
    destruct (blocks_run_passed _ _ _ _ _ _ _ _ Hrun) as [Hops _].
    rewrite map_app, Hops. reflexivity.
Qed.

Lemma pii_shown_deterministic (s : service K) ans pes pes' :
  pii_shown (K := K) ans pes -> pii_shown (K := K) ans pes' -> pes = pes'.
Proof.
  intros H H'. destruct H; inversion H'; subst; try reflexivity;
    match goal with
    | Ha : shows ?m _ _, Hb : shows ?m _ _ |- _ =>
        destruct (shows_unique _ _ _ _ _ _ s Ha Hb) as [Hr Hes];
        try discriminate Hr; subst; reflexivity
    end.
Qed.

Lemma cycle_run_deterministic s1 cs1 es1 s1' s2 cs2 es2 s2' :
  deterministic K ->
  cycle_run (K := K) c documents s1 cs1 es1 s1' ->
  cycle_run (K := K) c documents s2 cs2 es2 s2' ->
  cs1 = cs2 /\ es1 = es2.
Proof.
  intros Hdet H1 H2.
  destruct H1 as [e1 cs1 es1 s1' Hrun1 | cs1 es1 s1' ans1 s1'' pes1 Hrun1 Hreq1 Hshown1];
    destruct H2 as [e2 cs2 es2 s2' Hrun2 | cs2 es2 s2' ans2 s2'' pes2 Hrun2 Hreq2 Hshown2];
    destruct (blocks_run_deterministic _ _ _ _ _ _ _ _ _ _ _ _ _ _ Hdet Hrun1 Hrun2)
      as (Hr & -> & ->); try discriminate Hr.
  - inversion Hr; subst. split; reflexivity.
  - pose proof (Hdet RecognizePiiEntities c documents s1' s2') as Hfst.
    rewrite Hreq1, Hreq2 in Hfst. simpl in Hfst. subst ans2.
    rewrite (pii_shown_deterministic s1 _ _ _ Hshown1 Hshown2).
    split; reflexivity.
Qed.

End CycleShape.

Lemma page_run_deterministic (K : sdk) (i : inputs) (s1 s2 : service K)
  (w1 w2 : world K) :
  deterministic K -> page_run i s1 w1 -> page_run i s2 w2 ->
  screen w1 = screen w2 /\ calls w1 = calls w2.
Proof.
  intros Hdet H1 H2.
  destruct H1 as [ev1 Hall1 Hev1 | Hall1 Hclick1 | e1 Hall1 Hclick1 Hinit1
                  | cs1 es1 s1' Hall1 Hclick1 Hinit1 Hcycle1];
    destruct H2 as [ev2 Hall2 Hev2 | Hall2 Hclick2 | e2 Hall2 Hclick2 Hinit2
                    | cs2 es2 s2' Hall2 Hclick2 Hinit2 Hcycle2];
    try congruence; cbn [screen calls].
  - subst. split; reflexivity.
  - split; reflexivity.
  - rewrite Hinit1 in Hinit2. inversion Hinit2. split; reflexivity.
  - destruct (cycle_run_deterministic _ _ _ _ _ _ _ _ _ _ _ Hdet Hcycle1 Hcycle2)
      as [-> ->].
    split; reflexivity.
Qed.


(** ** What the blocks show for an answer *)

Section Shown.

Variable K : sdk.

(** A call of steps 1 to 4 that was answered has its answer on the screen,
    as far as its block got; in a cycle that succeeds, the whole of it. *)
Lemma page_run_shown (i : inputs) (s : service K) (w : world K)
  (c : call) (v : pyval) :
  page_run i s w ->
  In c (calls w) -> is_pii_op (call_op c) = false -> call_result c = inr v ->
  exists b r0 es0,
    In b (first_four K) /\ block_op b = call_op c /\
    shows (block_show b v) r0 es0 /\ incl es0 (screen w) /\
    (final_state (screen w) = Succeeded -> r0 = inr tt).
Proof.
  intros Hpage Hin Hop Hres.
  destruct Hpage as [ev Hall Hev | Hall Hclick | e0 Hall Hclick Hinit
                     | cs es s' Hall Hclick Hinit Hcycle];
    cbn [calls screen] in *; try (destruct Hin).
  destruct Hcycle as [e0 cs es s' Hrun | cs es s' ans s'' pes Hrun Hreq Hshown].
  - destruct (blocks_run_shown _ _ _ _ _ _ _ _ _ _ _ Hrun Hin Hres)
      as (b & r0 & es0 & Hb & Hbop & Hshows & Hincl & _).
    exists b, r0, es0. repeat split; try assumption.
    + apply incl_appr, incl_appl, Hincl.
    + pose proof (blocks_run_plain _ _ _ _ _ _ _ _ _ Hrun (first_four_plain K))
        as Hplain.
      destruct (screen_failed es e0 Hplain) as [Hfailed _].
      rewrite Hfailed. discriminate.
  - apply in_app_or in Hin. destruct Hin as [Hin | [<- | []]];
      [| discriminate Hop].
    destruct (blocks_run_shown _ _ _ _ _ _ _ _ _ _ _ Hrun Hin Hres)
      as (b & r0 & es0 & Hb & Hbop & Hshows & Hincl & Hr).
    exists b, r0, es0. repeat split; try assumption.
    + apply incl_appr, incl_appl, Hincl.
    + intros _. apply Hr. reflexivity.
Qed.

(** The PII call that is in the log has its answer in the PII section, the
    last thing on the screen. *)
Lemma page_run_pii_call (i : inputs) (s : service K) (w : world K) (c : call) :
  page_run i s w ->
  In c (calls w) -> call_op c = RecognizePiiEntities ->
  exists es4 pes,
    screen w = page_top ++ es4 ++ Subheader pii_title :: pes /\
    forallb plain es4 = true /\ pii_shown (K := K) (call_result c) pes /\
    map call_op (calls w) = op_sequence.
Proof.
  intros Hpage Hin Hop.
  destruct Hpage as [ev Hall Hev | Hall Hclick | e0 Hall Hclick Hinit
                     | cs es s' Hall Hclick Hinit Hcycle];
    cbn [calls screen] in *; try (destruct Hin).
  destruct (cycle_run_pii_call _ _ _ _ _ _ _ _ Hcycle Hin Hop)
    as (es4 & pes & cs4 & -> & Hplain & Hshown & _ & Hops).
  exists es4, pes. repeat split; assumption.
Qed.

Lemma bindE_inr {A B : Type} (r : exn + A) (k : A -> exn + B) (b : B) :
  bindE r k = inr b -> exists a, r = inr a /\ k a = inr b.
Proof. destruct r as [e | a]; simpl; [discriminate | eauto]. Qed.

Lemma bind_lift_inr {A : Type} (r : exn + A) (k : A -> M K unit)
  (w w' : world K) :
  bind (lift r) k w = (inr tt, w') -> exists a, r = inr a /\ k a w = (inr tt, w').
Proof.
  unfold bind, lift. destruct r as [e | a]; [discriminate | eauto].
Qed.

Lemma getattr_inr (x : pyval) (name : string) (y : pyval) :
  getattr x name = inr y -> exists attrs, x = PObj attrs /\ assoc name attrs = Some y.
Proof.
  destruct x; simpl; try discriminate.
  destruct (assoc name attrs) eqn:Hassoc; [| discriminate].
  intros H. inversion H; subst. eauto.
Qed.


Lemma format_pct0_inr (x : pyval) (t : text) :
  format_pct0 x = inr t -> t = [Pct0 x].
Proof.
  unfold format_pct0.
  destruct x; try discriminate; try (intros H; inversion H; reflexivity).
  destruct (Z.ltb (Z.abs n) float_limit); [| discriminate].
  intros H; inversion H; reflexivity.
Qed.

Lemma mapE_length {A B : Type} (f : A -> exn + B) (l : list A) (l' : list B) :
  mapE f l = inr l' -> List.length l' = List.length l.
Proof.
  revert l'. induction l as [| x l IH]; intros l'; simpl.
  - intros H. inversion H. reflexivity.
  - destruct (f x) as [e | y]; [discriminate |]. simpl.
    destruct (mapE f l) as [e | ys]; [discriminate |]. simpl.
    intros H. inversion H. simpl. rewrite (IH ys eq_refl). reflexivity.
Qed.

Lemma format_pct0_number (x : pyval) :
  percent_ok x = true -> format_pct0 x = inr [Pct0 x].
Proof.
  unfold format_pct0, percent_ok.
  destruct x; try discriminate; try reflexivity.
  intros ->. reflexivity.
Qed.

Lemma dict_get_str (label : string) :
  dict_get sentiment_emoji (PStr label) "😐" = inr (emoji_for label).
Proof.
  unfold dict_get, emoji_for. destruct (assoc label sentiment_emoji); reflexivity.
Qed.



(** A display of a well-formed sentiment answer ends normally. *)
Lemma show_sentiment_shows (attrs : list (string * pyval)) (rest : list pyval)
  (label : string) (scores : list (string * pyval)) (pos neg neu : pyval) :
  assoc "sentiment" attrs = Some (PStr label) ->
  assoc "confidence_scores" attrs = Some (PObj scores) ->
  assoc "positive" scores = Some pos -> percent_ok pos = true ->
  assoc "negative" scores = Some neg -> percent_ok neg = true ->
  assoc "neutral" scores = Some neu -> percent_ok neu = true ->
  shows (K := K) (show_sentiment (PList (PObj attrs :: rest))) (inr tt)
    (sentiment_widgets label pos neg neu).
Proof.
  intros Hlabel Hscores Hpos Hnpos Hneg Hnneg Hneu Hnneu w.
  unfold show_sentiment, bind, lift, emit. cbn [item0 getattr].
  rewrite Hlabel, Hscores. rewrite dict_get_str. cbn [upper getattr bindE].
  rewrite Hpos, Hneg, Hneu. cbn [bindE].
  rewrite (format_pct0_number pos Hnpos), (format_pct0_number neg Hnneg),
    (format_pct0_number neu Hnneu).
  cbn [svc calls screen]. rewrite <- !app_assoc. reflexivity.
Qed.

(** When the display of the sentiment answer ends normally, the key-phrase
    call is made. *)
Lemma sentiment_passed_then_key_phrases (i : inputs) (s : service K)
  (w : world K) (c : call) (v : pyval) (es0 : list event) :
  page_run i s w ->
  In c (calls w) -> call_op c = AnalyzeSentiment -> call_result c = inr v ->
  shows (K := K) (show_sentiment v) (inr tt) es0 ->
  In ExtractKeyPhrases (map call_op (calls w)).
Proof.
  intros Hpage Hin Hop Hres Hshows.
  assert (forall r cs es s',
             blocks_run (Client (endpoint i) (api_key i)) [user_text i]
               (first_four K) s r cs es s' ->
             In c cs -> In ExtractKeyPhrases (map call_op cs)) as Hblocks.
  { intros r cs es s' Hrun Hc.
    inversion Hrun as [| b bs s0 e s1 Hreq | b bs s0 v0 s1 e es1 Hreq Hshow Hes
                       | b bs s0 v0 s1 es1 r1 cs1 es2 s2 Hreq Hshow Hes Hrest];
      subst.
    - destruct Hc as [<- | []]. discriminate Hres.
    - destruct Hc as [<- | []]. simpl in Hres. inversion Hres; subst v0.
      destruct (shows_unique K _ _ _ _ _ s Hshow Hshows) as [Habs _].
      discriminate Habs.
    - right. inversion Hrest; subst; left; reflexivity. }
  destruct Hpage as [ev Hall Hev | Hall Hclick | e0 Hall Hclick Hinit
                     | cs es s' Hall Hclick Hinit Hcycle];
    cbn [calls screen] in *; try (destruct Hin).
  destruct Hcycle as [e0 cs es s' Hrun | cs es s' ans s'' pes Hrun Hreq Hshown].
  - exact (Hblocks _ _ _ _ Hrun Hin).
  - rewrite map_app. apply in_or_app. left.
    apply in_app_or in Hin. destruct Hin as [Hin | [<- | []]];
      [| discriminate Hop].
    exact (Hblocks _ _ _ _ Hrun Hin).
Qed.

(** The separators of a join, counted with the parts. *)
Lemma join_flat_map (x : frag) (parts : list text) :
  parts <> [] ->
  x :: join [x] parts = flat_map (fun p => x :: p) parts.
Proof.
  induction parts as [| p ps IH]; intros Hne; [contradiction |].
  destruct ps as [| q qs].
  - simpl. rewrite app_nil_r. reflexivity.
  - change (x :: p ++ [x] ++ join [x] (q :: qs)
            = (x :: p) ++ flat_map (fun p => x :: p) (q :: qs)).
    rewrite <- IH by discriminate. reflexivity.
Qed.

(** The markdown of phrases that are strings. *)
Lemma phrases_html_strings (names : list string) :
  phrases_html (map PStr names)
  = inr (join [Lit " "]
           (map (fun s => [Lit span_open; Lit s; Lit "</span>"]) names)).
Proof.
  unfold phrases_html.
  assert (mapE span (map PStr names)
          = inr (map (fun s => [Lit span_open; Lit s; Lit "</span>"]) names))
    as ->.
  { induction names as [| n ns IH]; simpl; [reflexivity |].
    rewrite IH. reflexivity. }
  reflexivity.
Qed.



Lemma flat_map_map {A B C : Type} (f : A -> B) (g : B -> list C) (l : list A) :
  flat_map g (map f l) = flat_map (fun x => g (f x)) l.
Proof.
  induction l as [| x l IH]; simpl; [reflexivity |]. rewrite IH. reflexivity.
Qed.


(** What the key-phrase block shows for a list of phrases that are
    strings. *)
Lemma show_key_phrases_shows (attrs : list (string * pyval))
  (rest : list pyval) (names : list string) :
  assoc "key_phrases" attrs = Some (PList (map PStr names)) ->
  shows (K := K) (show_key_phrases (PList (PObj attrs :: rest))) (inr tt)
    [match names with
     | [] => Info [Lit "No key phrases detected"]
     | _ =>
         Markdown
           (join [Lit " "]
              (map (fun s => [Lit span_open; Lit s; Lit "</span>"])
                 (firstn 10 names))) true
     end;
     Markdown rule false].
Proof.
  intros Hphrases w.
  unfold show_key_phrases, bind, lift, emit. cbn [item0 getattr].
  rewrite Hphrases.
  destruct names as [| n ns].
  - cbn [map truthy svc calls screen]. rewrite <- !app_assoc. reflexivity.
  - change (truthy (PList (map PStr (n :: ns)))) with true.
    cbn [slice10 bindE]. rewrite firstn_map, phrases_html_strings.
    cbn [svc calls screen]. rewrite <- !app_assoc. reflexivity.
Qed.

(** The rows the loop of lines 142 to 147 builds, entity by entity. *)
Lemma entity_rows_of (entities : list pyval) (rows : list row) :
  mapE entity_row entities = inr rows ->
  Forall2
    (fun entity r =>
       exists attrs text category score,
         entity = PObj attrs /\
         assoc "text" attrs = Some text /\
         assoc "category" attrs = Some category /\
         assoc "confidence_score" attrs = Some score /\
         r = [("Entity", CVal text); ("Category", CVal category);
              ("Confidence", CText [Pct0 score])])
    entities rows.
Proof.
  revert rows. induction entities as [| x xs IH]; intros rows; simpl.
  - intros H. inversion H. constructor.
  - destruct (entity_row x) as [e | r] eqn:Hrow; [discriminate |]. simpl.
    destruct (mapE entity_row xs) as [e | rs]; [discriminate |]. simpl.
    intros H. inversion H; subst. constructor; [| apply IH; reflexivity].
    unfold entity_row in Hrow.
    apply bindE_inr in Hrow as (text & Htext & Hrow).
    apply bindE_inr in Hrow as (category & Hcategory & Hrow).
    apply bindE_inr in Hrow as (confidence & Hconfidence & Hrow).
    apply bindE_inr in Hconfidence as (score & Hscore & Hformat).
    apply format_pct0_inr in Hformat. subst confidence.
    apply getattr_inr in Htext as (attrs & -> & Htext).
    simpl in Hcategory, Hscore.
    destruct (assoc "category" attrs) as [c' |] eqn:Hc; [| discriminate].
    destruct (assoc "confidence_score" attrs) as [s' |] eqn:Hs;
      [| discriminate].
    inversion Hcategory; inversion Hscore; subst.
    inversion Hrow. exists attrs, text, category, score.
    repeat split; assumption || reflexivity.
Qed.


(** The block of [first_four] that has a given operation. *)
Lemma first_four_key_phrases (b : block K) :
  In b (first_four K) -> block_op b = ExtractKeyPhrases ->
  b = Block ExtractKeyPhrases "🔑 Key Phrases" show_key_phrases.
Proof.
  intros [<- | [<- | [<- | [<- | []]]]] Hop;
    try discriminate Hop; reflexivity.
Qed.


Lemma first_four_sentiment (b : block K) :
  In b (first_four K) -> block_op b = AnalyzeSentiment ->
  b = Block AnalyzeSentiment "😊 Sentiment Analysis" show_sentiment.
Proof.
  intros [<- | [<- | [<- | [<- | []]]]] Hop;
    try discriminate Hop; reflexivity.
Qed.

End Shown.

(** ** The claims *)

Section Claims.

Variable K : sdk.

(** The four ways a run can end, for a run named by a hypothesis
    [Hrun : run K i s = (r, w)]. *)
Ltac page_cases i s r w Hrun :=
  let w0 := fresh "w0" in
  let Hrun0 := fresh "Hrun0" in
  let Hpage := fresh "Hpage" in
  destruct (run_page K i s) as (w0 & Hrun0 & Hpage);
  rewrite Hrun0 in Hrun; inversion Hrun; subst r w; clear Hrun;
  destruct Hpage as [ev Hall Hev | Hall Hclick | e0 Hall Hclick Hinit
                     | cs es s' Hall Hclick Hinit Hcycle];
  cbn [calls screen svc] in *.

(** C1. When one of the first four remote calls raises, the cycle ends with
    the one fatal error (the error message and the credentials hint), the
    failing call is the last call made, the calls made are a prefix of the
    fixed order without the PII call, and nothing of the PII step is on the
    screen. *)
Theorem failure_in_steps_1_4_is_fatal (i : inputs) (s : service K)
  (r : exn + unit) (w : world K) (c : call) (e : exn) :
  run K i s = (r, w) ->
  In c (calls w) -> is_pii_op (call_op c) = false -> call_result c = inl e ->
  r = inr tt /\
  final_state (screen w) = Failed /\
  (exists shown,
      screen w = shown ++ fatal_error e /\ existsb is_error shown = false) /\
  (exists before, calls w = before ++ [c]) /\
  (exists n, map call_op (calls w) = firstn n op_sequence) /\
  existsb is_pii_op (map call_op (calls w)) = false /\
  pii_outcome (screen w) = NotAttempted.
Proof.
  intros Hrun Hin Hop Hres.
  page_cases i s r w Hrun; try (destruct Hin).
  destruct (cycle_run_failed_call _ _ _ _ _ _ _ _ _ Hcycle Hin Hop Hres)
    as (es4 & -> & Hplain & Hlast & Hprefix & Hnopii).
  destruct (screen_failed es4 e Hplain) as [Hfailed Hnot].
  split; [reflexivity |]. split; [exact Hfailed |].
  split.
  - exists (page_top ++ es4). split.
    + rewrite <- app_assoc. reflexivity.
    + rewrite existsb_app, (plain_no_error es4 Hplain). reflexivity.
  - repeat split; assumption.
Qed.

(** C2. When the PII call raises, steps 1 to 4 have passed, the cycle
    succeeds without any error widget, and the PII section shows only the
    information that PII detection is not available. *)
Theorem pii_failure_is_not_fatal (i : inputs) (s : service K)
  (r : exn + unit) (w : world K) (c : call) (e : exn) :
  run K i s = (r, w) ->
  In c (calls w) -> call_op c = RecognizePiiEntities ->
  call_result c = inl e ->
  r = inr tt /\
  final_state (screen w) = Succeeded /\
  existsb is_error (screen w) = false /\
  map call_op (calls w) = op_sequence /\
  (exists shown,
      screen w = shown ++ [Subheader pii_title; Info pii_unavailable]) /\
  pii_outcome (screen w) = Unavailable.
Proof.
  intros Hrun Hin Hop Hres.
  page_cases i s r w Hrun; try (destruct Hin).
  destruct (cycle_run_pii_call _ _ _ _ _ _ _ _ Hcycle Hin Hop)
    as (es4 & pes & cs4 & -> & Hplain & Hshown & _ & Hops).
  rewrite Hres in Hshown. inversion Hshown; subst.
  destruct (screen_passed es4 [Info pii_unavailable] Hplain eq_refl)
    as (Hstate & Herr & Hsec).
  repeat split; try assumption.
  - exists (page_top ++ es4). rewrite <- app_assoc. reflexivity.
  - unfold pii_outcome. rewrite Hsec. reflexivity.
Qed.

(** C6. The spinner is put up, or a call is made, only when the text, the
    endpoint and the key are all non-empty; when one of them is empty the
    run makes no call, leaves the service as it was and stays idle. *)
Theorem requesting_needs_text_and_credentials (i : inputs) (s : service K)
  (r : exn + unit) (w : world K) :
  run K i s = (r, w) ->
  (entered_requesting (screen w) = true \/ calls w <> [] ->
   user_text i <> EmptyString /\ endpoint i <> EmptyString /\
   api_key i <> EmptyString) /\
  (user_text i = EmptyString \/ endpoint i = EmptyString \/
   api_key i = EmptyString ->
   calls w = [] /\ svc w = s /\ final_state (screen w) = Idle /\
   entered_requesting (screen w) = false).
Proof.
  intros Hrun.
  assert (all_present i = true <->
          user_text i <> EmptyString /\ endpoint i <> EmptyString /\
          api_key i <> EmptyString) as Hpresent.
  { unfold all_present, nonempty.
    rewrite !andb_true_iff, !negb_true_iff, !String.eqb_neq. tauto. }
  assert (all_present i = false ->
          forall ev : event,
            ev = (if nonempty (user_text i)
                  then Warning
                         [Lit "⚠️ Please enter Azure credentials in the sidebar"]
                  else Info [Lit "👈 Enter text to analyze"]) ->
            is_spinner ev = false) as Hprompt.
  { intros _ ev ->. destruct (nonempty (user_text i)); reflexivity. }
  page_cases i s r w Hrun.
  - pose proof (Hprompt Hall ev Hev) as Hsp. split.
    + unfold entered_requesting. simpl. rewrite Hsp.
      intros [Habs | Habs]; [discriminate | congruence].
    + intros _. unfold final_state, entered_requesting. simpl. rewrite Hsp.
      repeat split; reflexivity.
  - split.
    + intros _. apply Hpresent, Hall.
    + intros Hempty. exfalso. apply Hpresent in Hall. intuition congruence.
  - split.
    + intros _. apply Hpresent, Hall.
    + intros Hempty. exfalso. apply Hpresent in Hall. intuition congruence.
  - split.
    + intros _. apply Hpresent, Hall.
    + intros Hempty. exfalso. apply Hpresent in Hall. intuition congruence.
Qed.

(** C4, as the code has it.  The calls of a run are a prefix of the fixed
    order: sentiment, key phrases, language, entities, PII; each is made
    with the one document that is the user text, on the endpoint and key of
    the page; each is answered from the state the call before left; a
    cycle that succeeds has made exactly the five; and a cycle stops at a
    call that fails: a call that raised is the last call of the run, and
    when it is one of steps 1 to 4 the PII call is not made. *)
Theorem calls_follow_the_fixed_order (i : inputs) (s : service K)
  (r : exn + unit) (w : world K) :
  run K i s = (r, w) ->
  (exists n, map call_op (calls w) = firstn n op_sequence) /\
  Forall (fun c => call_documents c = [user_text i] /\
                   call_endpoint c = endpoint i /\
                   call_key c = api_key i) (calls w) /\
  sequential K s (calls w) (svc w) /\
  (final_state (screen w) = Succeeded ->
   map call_op (calls w) = op_sequence) /\
  (forall c e,
      In c (calls w) -> call_result c = inl e ->
      (exists before, calls w = before ++ [c]) /\
      (is_pii_op (call_op c) = false ->
       existsb is_pii_op (map call_op (calls w)) = false /\
       List.length (calls w) < 5)).
Proof.
  intros Hrun.
  page_cases i s r w Hrun.
  - split; [exists 0; reflexivity |].
    split; [constructor |]. split; [reflexivity |].
    split; [| intros c e []].
    unfold final_state, entered_requesting. simpl.
    replace (is_spinner ev) with false
      by (subst ev; destruct (nonempty (user_text i)); reflexivity).
    discriminate.
  - split; [exists 0; reflexivity |].
    split; [constructor |]. split; [reflexivity |].
    split; [discriminate | intros c e []].
  - split; [exists 0; reflexivity |].
    split; [constructor |]. split; [reflexivity |].
    split; [discriminate | intros c e []].
  - split; [exact (cycle_run_ops _ _ _ _ _ _ _ Hcycle) |].
    split; [exact (cycle_run_issued _ _ _ _ _ _ _ Hcycle) |].
    split; [exact (cycle_run_sequential _ _ _ _ _ _ _ Hcycle) |].
    split.
    + destruct (cycle_run_screen _ _ _ _ _ _ _ Hcycle)
        as [(es4 & e & -> & Hplain) | (es4 & pes & -> & Hplain & _ & Hops)].
      * destruct (screen_failed es4 e Hplain) as [Hfailed _].
        rewrite Hfailed. discriminate.
      * intros _. exact Hops.
    + intros c e Hin Hres.
      split; [exact (cycle_run_failed_last _ _ _ _ _ _ _ _ _ Hcycle Hin Hres) |].
      intros Hop.
      destruct (cycle_run_failed_call _ _ _ _ _ _ _ _ _ Hcycle Hin Hop Hres)
        as (es4 & _ & _ & _ & [n Hn] & Hpii).
      split; [exact Hpii |].
      rewrite <- (length_map call_op), Hn.
      destruct (Nat.lt_ge_cases (List.length (firstn n op_sequence)) 5)
        as [Hlt | Hge]; [exact Hlt |].
      exfalso.
      assert (firstn n op_sequence = op_sequence) as Hfive.
      { do 5 (destruct n as [| n]; [simpl in Hge; lia |]).
        destruct n; reflexivity. }
      rewrite Hn, Hfive in Hpii. discriminate Hpii.
Qed.

(** C8. Against a service whose answers do not depend on its state, two
    runs of the script with the same inputs end alike, show the same
    widgets and log the same calls, whatever state the service is in when
    each starts: nothing but the service state outlives a run. *)
Theorem same_request_same_report (i : inputs) (s1 s2 : service K)
  (r1 r2 : exn + unit) (w1 w2 : world K) :
  deterministic K ->
  run K i s1 = (r1, w1) -> run K i s2 = (r2, w2) ->
  r1 = r2 /\ screen w1 = screen w2 /\ calls w1 = calls w2.
Proof.
  intros Hdet Hrun1 Hrun2.
  destruct (run_page K i s1) as (w1' & Heq1 & Hpage1).
  destruct (run_page K i s2) as (w2' & Heq2 & Hpage2).
  rewrite Heq1 in Hrun1. rewrite Heq2 in Hrun2.
  inversion Hrun1; inversion Hrun2; subst.
  split; [reflexivity |].
  exact (page_run_deterministic K i s1 s2 w1 w2 Hdet Hpage1 Hpage2).
Qed.

(** C5. When the PII call answers with an empty entity list, the PII
    section shows the success message that no personal information was
    detected; when the call raises it shows the information that detection
    is not available; the two are different widgets and different
    outcomes. *)
Theorem empty_pii_list_is_not_unavailable (i : inputs) (s : service K)
  (r : exn + unit) (w : world K) (c : call) :
  run K i s = (r, w) ->
  In c (calls w) -> call_op c = RecognizePiiEntities ->
  (forall attrs rest,
      call_result c = inr (PList (PObj attrs :: rest)) ->
      assoc "entities" attrs = Some (PList []) ->
      final_state (screen w) = Succeeded /\
      (exists shown,
          screen w = shown ++ [Subheader pii_title; Success pii_none]) /\
      pii_outcome (screen w) = NoPii) /\
  (forall e,
      call_result c = inl e ->
      (exists shown,
          screen w = shown ++ [Subheader pii_title; Info pii_unavailable]) /\
      pii_outcome (screen w) = Unavailable) /\
  NoPii <> Unavailable /\
  Success pii_none <> Info pii_unavailable.
Proof.
  intros Hrun Hin Hop.
  destruct (run_page K i s) as (w0 & Hrun0 & Hpage).
  rewrite Hrun0 in Hrun. inversion Hrun; subst r w. clear Hrun.
  destruct (page_run_pii_call K i s w0 c Hpage Hin Hop)
    as (es4 & pes & Hscreen & Hplain & Hshown & _).
  rewrite Hscreen.
  destruct (screen_passed es4 pes Hplain (pii_shown_plain K _ _ Hshown))
    as (Hstate & _ & Hsec).
  unfold pii_outcome. rewrite Hsec.
  split; [| split; [| split; discriminate]].
  - intros attrs rest Hres Hentities. rewrite Hres in Hshown.
    assert (pes = [Success pii_none]) as ->.
    { inversion Hshown as [| v e es Hshows _ | v es Hshows _]; subst;
        apply (shows_fresh K _ _ _ s) in Hshows;
        unfold show_pii, bind, lift in Hshows; simpl in Hshows;
        rewrite Hentities in Hshows; simpl in Hshows;
        inversion Hshows; reflexivity. }
    split; [exact Hstate |]. split; [| reflexivity].
    exists (page_top ++ es4). rewrite <- app_assoc. reflexivity.
  - intros e Hres. rewrite Hres in Hshown. inversion Hshown; subst.
    split; [| reflexivity].
    exists (page_top ++ es4). rewrite <- app_assoc. reflexivity.
Qed.

(** C10. The handler of the PII step also covers the display of an answer
    that did arrive: when the PII call returns and the display of its answer
    raises, the cycle still succeeds without an error widget, and the PII
    section ends, after whatever the display had already shown, with the
    information that PII detection is not available. *)
Theorem pii_handler_covers_display (i : inputs) (s : service K)
  (r : exn + unit) (w : world K) (c : call) (v : pyval) (e : exn) :
  run K i s = (r, w) ->
  In c (calls w) -> call_op c = RecognizePiiEntities ->
  call_result c = inr v ->
  fst (show_pii v (World s [] [])) = inl e ->
  r = inr tt /\
  final_state (screen w) = Succeeded /\
  existsb is_error (screen w) = false /\
  (exists shown,
      screen w = shown ++ Subheader pii_title
                   :: screen (snd (show_pii v (World s [] [])))
                   ++ [Info pii_unavailable]) /\
  pii_outcome (screen w) = Unavailable.
Proof.
  intros Hrun Hin Hop Hres Hraises.
  destruct (run_page K i s) as (w0 & Hrun0 & Hpage).
  rewrite Hrun0 in Hrun. inversion Hrun; subst r w. clear Hrun.
  destruct (page_run_pii_call K i s w0 c Hpage Hin Hop)
    as (es4 & pes & Hscreen & Hplain & Hshown & _).
  rewrite Hscreen.
  destruct (screen_passed es4 pes Hplain (pii_shown_plain K _ _ Hshown))
    as (Hstate & Herr & Hsec).
  unfold pii_outcome. rewrite Hsec, Hres in *.
  inversion Hshown as [| v' e' es Hshows _ | v' es Hshows _]; subst;
    apply (shows_fresh K _ _ _ s) in Hshows; rewrite Hshows in *;
    simpl in Hraises; [| discriminate].
  repeat split; try assumption.
  - exists (page_top ++ es4). rewrite <- app_assoc. reflexivity.
  - rewrite rev_app_distr. reflexivity.
Qed.



(** C9, as the code has it.  A str label outside the four values does not
    raise: the lookup gives the default emoji, and with numbers for the three
    scores the display of the sentiment answer ends normally, shows the
    heading with the default emoji and the label in upper case, and the
    key-phrase call follows. *)
Theorem unknown_label_gets_default_emoji (i : inputs) (s : service K)
  (r : exn + unit) (w : world K) (c : call)
  (attrs scores : list (string * pyval)) (rest : list pyval) (label : string)
  (pos neg neu : pyval) :
  run K i s = (r, w) ->
  In c (calls w) -> call_op c = AnalyzeSentiment ->
  call_result c = inr (PList (PObj attrs :: rest)) ->
  assoc "sentiment" attrs = Some (PStr label) ->
  assoc label sentiment_emoji = None ->
  assoc "confidence_scores" attrs = Some (PObj scores) ->
  assoc "positive" scores = Some pos -> percent_ok pos = true ->
  assoc "negative" scores = Some neg -> percent_ok neg = true ->
  assoc "neutral" scores = Some neu -> percent_ok neu = true ->
  dict_get sentiment_emoji (PStr label) "😐" = inr "😐" /\
  upper (PStr label) = inr (upper_text label) /\
  shows (K := K) (show_sentiment (PList (PObj attrs :: rest))) (inr tt)
    (sentiment_widgets label pos neg neu) /\
  In (Markdown [Lit "### "; Lit "😐"; Lit " "; upper_text label] false)
    (screen w) /\
  In ExtractKeyPhrases (map call_op (calls w)).
Proof.
  intros Hrun Hin Hop Hres Hlabel Hunknown Hscores Hpos Hnpos Hneg Hnneg
    Hneu Hnneu.
  destruct (run_page K i s) as (w0 & Hrun0 & Hpage).
  rewrite Hrun0 in Hrun. inversion Hrun; subst r w. clear Hrun.
  pose proof (show_sentiment_shows K attrs rest label scores pos neg neu
                Hlabel Hscores Hpos Hnpos Hneg Hnneg Hneu Hnneu) as Hdisplay.
  split; [unfold dict_get; rewrite Hunknown; reflexivity |].
  split; [reflexivity |].
  split; [exact Hdisplay |].
  split.
  - assert (is_pii_op (call_op c) = false) as Hnot
      by (rewrite Hop; reflexivity).
    destruct (page_run_shown K i s w0 c _ Hpage Hin Hnot Hres)
      as (b & r0 & es0 & Hb & Hbop & Hshows & Hincl & _).
    clear Hnot.
    rewrite Hop in Hbop.
    rewrite (first_four_sentiment K b Hb Hbop) in Hshows. simpl in Hshows.
    destruct (shows_unique K _ _ _ _ _ s Hshows Hdisplay) as [_ ->].
    apply Hincl. left. unfold emoji_for. rewrite Hunknown. reflexivity.
  - exact (sentiment_passed_then_key_phrases K i s w0 c _ _ Hpage Hin Hop Hres
             Hdisplay).
Qed.

End Claims.

(** ** The scenarios of the spec *)

(** The first scenario: every call is answered, one key phrase, no entity,
    no personal information. *)
Example love_run_report :
  love_run
  = (inr tt,
     World (K := mock love_answers) tt
       (map (love_call love_answers) op_sequence)
       (page_top
        ++ Subheader "😊 Sentiment Analysis"
           :: sentiment_widgets "positive" (PFloat (95 # 100))
                (PFloat (2 # 100)) (PFloat (3 # 100))
        ++ [Subheader "🔑 Key Phrases";
            Markdown [Lit span_open; Lit "product"; Lit "</span>"] true;
            Markdown rule false;
            Subheader "🌍 Language";
            Columns 2;
            Info [Lit "**"; Lit "English"; Lit "** ("; Lit "en"; Lit ")"];
            Info [Lit "Confidence: **"; Pct0 (PFloat (99 # 100)); Lit "**"];
            Markdown rule false;
            Subheader "🏷️ Named Entities";
            Info [Lit "No entities detected"];
            Markdown rule false;
            Subheader pii_title;
            Success pii_none])).
Proof. vm_compute. reflexivity. Qed.

(** The second scenario: the sentiment call is rejected; nothing of the
    later steps is on the screen. *)
Example unauthorized_run_report :
  unauthorized_run
  = (inr tt,
     World (K := mock unauthorized_answers) tt
       [love_call unauthorized_answers AnalyzeSentiment]
       (page_top ++ Subheader "😊 Sentiment Analysis"
          :: fatal_error unauthorized)).
Proof. vm_compute. reflexivity. Qed.

(** The four outcomes of the PII step. *)
Example pii_outcomes :
  pii_outcome (screen (snd unauthorized_run)) = NotAttempted /\
  pii_outcome (screen (snd love_run)) = NoPii /\
  pii_outcome (screen (snd pii_fails_run)) = Unavailable /\
  pii_outcome
    (screen (snd (run (mock john_redacted_answers) love_inputs tt)))
  = Detected.
Proof. repeat split; vm_compute; reflexivity. Qed.

(** ** The claims on the example runs *)

(** Closed facts about the example runs, by evaluation. *)
Ltac evaluated :=
  vm_compute;
  first [ reflexivity
        | repeat (first [left; reflexivity | right]) ].

(** The 401 of the spec's second scenario: one call, the fatal error,
    nothing of the PII step. *)
Lemma failure_in_steps_1_4_is_fatal_witness :
  fst unauthorized_run = inr tt /\
  final_state (screen (snd unauthorized_run)) = Failed /\
  (exists shown,
      screen (snd unauthorized_run) = shown ++ fatal_error unauthorized /\
      existsb is_error shown = false) /\
  (exists before,
      calls (snd unauthorized_run)
      = before ++ [love_call unauthorized_answers AnalyzeSentiment]) /\
  (exists n,
      map call_op (calls (snd unauthorized_run)) = firstn n op_sequence) /\
  existsb is_pii_op (map call_op (calls (snd unauthorized_run))) = false /\
  pii_outcome (screen (snd unauthorized_run)) = NotAttempted.
Proof.
  assert (run (mock unauthorized_answers) love_inputs tt
          = (fst unauthorized_run, snd unauthorized_run)) as Hrun
    by evaluated.
  assert (In (love_call unauthorized_answers AnalyzeSentiment)
            (calls (snd unauthorized_run))) as Hin by evaluated.
  exact (failure_in_steps_1_4_is_fatal (mock unauthorized_answers)
           love_inputs tt _ _ _ unauthorized Hrun Hin eq_refl eq_refl).
Defined.

Lemma pii_failure_is_not_fatal_witness :
  fst pii_fails_run = inr tt /\
  final_state (screen (snd pii_fails_run)) = Succeeded /\
  existsb is_error (screen (snd pii_fails_run)) = false /\
  map call_op (calls (snd pii_fails_run)) = op_sequence /\
  (exists shown,
      screen (snd pii_fails_run)
      = shown ++ [Subheader pii_title; Info pii_unavailable]) /\
  pii_outcome (screen (snd pii_fails_run)) = Unavailable.
Proof.
  assert (run (mock pii_fails_answers) love_inputs tt
          = (fst pii_fails_run, snd pii_fails_run)) as Hrun by evaluated.
  assert (In (love_call pii_fails_answers RecognizePiiEntities)
            (calls (snd pii_fails_run))) as Hin by evaluated.
  exact (pii_failure_is_not_fatal (mock pii_fails_answers) love_inputs tt
           _ _ _ unsupported Hrun Hin eq_refl eq_refl).
Defined.


(** The 401 again: a cycle was entered and made one call, not five. *)
Lemma unauthorized_cycle_stops_after_one_call :
  entered_requesting (screen (snd unauthorized_run)) = true /\
  map call_op (calls (snd unauthorized_run)) = [AnalyzeSentiment] /\
  List.length (calls (snd unauthorized_run)) <> 5 /\
  map call_op (calls (snd unauthorized_run)) <> op_sequence.
Proof.
  split; [evaluated |]. split; [evaluated |].
  split; vm_compute; discriminate.
Qed.

Lemma calls_follow_the_fixed_order_witness :
  (exists n, map call_op (calls (snd love_run)) = firstn n op_sequence) /\
  Forall (fun c => call_documents c = [user_text love_inputs] /\
                   call_endpoint c = endpoint love_inputs /\
                   call_key c = api_key love_inputs) (calls (snd love_run)) /\
  sequential (mock love_answers) tt (calls (snd love_run))
    (svc (snd love_run)) /\
  (final_state (screen (snd love_run)) = Succeeded ->
   map call_op (calls (snd love_run)) = op_sequence) /\
  (forall c e,
      In c (calls (snd love_run)) -> call_result c = inl e ->
      (exists before, calls (snd love_run) = before ++ [c]) /\
      (is_pii_op (call_op c) = false ->
       existsb is_pii_op (map call_op (calls (snd love_run))) = false /\
       List.length (calls (snd love_run)) < 5)).
Proof.
  assert (run (mock love_answers) love_inputs tt
          = (fst love_run, snd love_run)) as Hrun by evaluated.
  exact (calls_follow_the_fixed_order (mock love_answers) love_inputs tt _ _
           Hrun).
Defined.

(** The first scenario of the spec: the PII call answers with no entity. *)
Lemma empty_pii_list_is_not_unavailable_witness :
  final_state (screen (snd love_run)) = Succeeded /\
  (exists shown,
      screen (snd love_run) = shown ++ [Subheader pii_title; Success pii_none]) /\
  pii_outcome (screen (snd love_run)) = NoPii.
Proof.
  assert (run (mock love_answers) love_inputs tt
          = (fst love_run, snd love_run)) as Hrun by evaluated.
  assert (In (love_call love_answers RecognizePiiEntities)
            (calls (snd love_run))) as Hin by evaluated.
  exact (proj1 (empty_pii_list_is_not_unavailable (mock love_answers)
                  love_inputs tt _ _ _ Hrun Hin eq_refl)
           [("entities", PList []); ("redacted_text", PStr love_text)] []
           eq_refl eq_refl).
Defined.

(** The key is missing: no call, the service untouched, the page idle. *)
Lemma requesting_needs_text_and_credentials_witness :
  calls (snd no_key_run) = [] /\ svc (snd no_key_run) = tt /\
  final_state (screen (snd no_key_run)) = Idle /\
  entered_requesting (screen (snd no_key_run)) = false.
Proof.
  assert (run (mock love_answers) no_key_inputs tt
          = (fst no_key_run, snd no_key_run)) as Hrun by evaluated.
  exact (proj2 (requesting_needs_text_and_credentials (mock love_answers)
                  no_key_inputs tt _ _ Hrun)
           (or_intror (or_intror eq_refl))).
Defined.



(** A service that counts its requests answers the second run from another
    state, and the report is the same. *)
Lemma same_request_same_report_witness :
  fst (run (counting_mock love_answers) love_inputs 0)
  = fst (run (counting_mock love_answers) love_inputs 5) /\
  screen (snd (run (counting_mock love_answers) love_inputs 0))
  = screen (snd (run (counting_mock love_answers) love_inputs 5)) /\
  calls (snd (run (counting_mock love_answers) love_inputs 0))
  = calls (snd (run (counting_mock love_answers) love_inputs 5)).
Proof.
  assert (deterministic (counting_mock love_answers)) as Hdet
    by (intros op c documents s s'; reflexivity).
  assert (run (counting_mock love_answers) love_inputs 0
          = (fst (run (counting_mock love_answers) love_inputs 0),
             snd (run (counting_mock love_answers) love_inputs 0))) as Hrun1
    by evaluated.
  assert (run (counting_mock love_answers) love_inputs 5
          = (fst (run (counting_mock love_answers) love_inputs 5),
             snd (run (counting_mock love_answers) love_inputs 5))) as Hrun2
    by evaluated.
  exact (same_request_same_report (counting_mock love_answers) love_inputs
           0 5 _ _ _ _ Hdet Hrun1 Hrun2).
Defined.

(** The state the first run leaves is the state the second starts from. *)
Example counting_mock_after_one_run :
  svc (snd (run (counting_mock love_answers) love_inputs 0)) = 5.
Proof. evaluated. Qed.

(** Without that hypothesis the two reports can differ: the first run of
    the throttled service succeeds, the second fails. *)
Example throttled_reports_differ :
  final_state (screen (snd (run throttled_mock love_inputs 0))) = Succeeded /\
  final_state
    (screen
       (snd (run throttled_mock love_inputs
               (svc (snd (run throttled_mock love_inputs 0))))))
  = Failed.
Proof. split; evaluated. Qed.

(** The label "surprised" is on the screen as SURPRISED, and not as it was
    returned. *)
Lemma unknown_label_is_shown_in_upper_case :
  In (love_call odd_answers AnalyzeSentiment) (calls (snd odd_run)) /\
  assoc "sentiment" odd_sentiment = Some (PStr "surprised") /\
  In (Markdown [Lit "### "; Lit "😐"; Lit " "; Lit "SURPRISED"] false)
    (screen (snd odd_run)) /\
  ~ In (Markdown [Lit "### "; Lit "😐"; Lit " "; Lit "surprised"] false)
      (screen (snd odd_run)).
Proof.
  split; [evaluated |].
  split; [reflexivity |].
  split; [evaluated |].
  intros H. vm_compute in H.
  repeat (destruct H as [H | H]; [discriminate H |]).
  destruct H.
Qed.

Lemma unknown_label_gets_default_emoji_witness :
  dict_get sentiment_emoji (PStr "surprised") "😐" = inr "😐" /\
  upper (PStr "surprised") = inr (upper_text "surprised") /\
  shows (K := mock odd_answers) (show_sentiment (PList [PObj odd_sentiment]))
    (inr tt)
    (sentiment_widgets "surprised" (PFloat (3 # 2)) (PFloat (- 1 # 2))
       (PFloat (7 # 1))) /\
  In (Markdown [Lit "### "; Lit "😐"; Lit " "; upper_text "surprised"] false)
    (screen (snd odd_run)) /\
  In ExtractKeyPhrases (map call_op (calls (snd odd_run))).
Proof.
  assert (run (mock odd_answers) love_inputs tt
          = (fst odd_run, snd odd_run)) as Hrun by evaluated.
  assert (In (love_call odd_answers AnalyzeSentiment) (calls (snd odd_run)))
    as Hin by evaluated.
  exact (unknown_label_gets_default_emoji (mock odd_answers) love_inputs tt
           _ _ _ odd_sentiment odd_scores [] "surprised"
           (PFloat (3 # 2)) (PFloat (- 1 # 2)) (PFloat (7 # 1))
           Hrun Hin eq_refl eq_refl eq_refl eq_refl eq_refl
           eq_refl eq_refl eq_refl eq_refl eq_refl eq_refl).
Defined.

(** An entity was detected and shown, the redacted text is missing: the
    section ends with the information that detection is not available. *)
Lemma pii_handler_covers_display_witness :
  (fst john_run = inr tt /\
   final_state (screen (snd john_run)) = Succeeded /\
   existsb is_error (screen (snd john_run)) = false /\
   (exists shown,
       screen (snd john_run)
       = shown ++ Subheader pii_title
           :: screen (snd john_display) ++ [Info pii_unavailable]) /\
   pii_outcome (screen (snd john_run)) = Unavailable) /\
  screen (snd john_display)
  = [Warning [Lit "⚠️ "; Dec 1; Lit " PII entities detected"];
     Dataframe [[("Type", CVal (PStr "Person"));
                 ("Text", CVal (PStr "John"))]];
     Expander "👁️ View Redacted Text"].
Proof.
  assert (run (mock john_answers) love_inputs tt
          = (fst john_run, snd john_run)) as Hrun by evaluated.
  assert (In (love_call john_answers RecognizePiiEntities)
            (calls (snd john_run))) as Hin by evaluated.
  assert (fst john_display = inl (AttributeError "redacted_text")) as Hraises
    by evaluated.
  split; [| evaluated].
  exact (pii_handler_covers_display (mock john_answers) love_inputs tt
           _ _ _ john (AttributeError "redacted_text")
           Hrun Hin eq_refl eq_refl Hraises).
Defined.

(** * Further properties of the script *)

(** ** Blocks read by operation *)

Section ByOperation.

Variable K : sdk.
Variable c : client.
Variable documents : list string.

Lemma operation_eqb_eq (a b : operation) :
  operation_eqb a b = true <-> a = b.
Proof. destruct a, b; simpl; split; intros H; congruence. Qed.

Lemma first_four_by_operation : Forall (by_operation (K := K)) (first_four K).
Proof. repeat constructor. Qed.

Lemma quiet_show_of (op : operation) (v : pyval) : quiet (K := K) (show_of op v).
Proof.
  destruct op; simpl.
  - apply quiet_show_sentiment.
  - apply quiet_show_key_phrases.
  - apply quiet_show_language.
  - apply quiet_show_entities.
  - apply quiet_show_pii.
Qed.

(** What a display does on an empty screen tells what it does on any. *)
Lemma shows_of_fresh {A : Type} (m : M K A) (s : service K) :
  quiet m ->
  shows m (fst (m (World s [] []))) (screen (snd (m (World s [] [])))).
Proof.
  intros (r & es & _ & Hm). rewrite (Hm (World s [] [])). simpl. exact Hm.
Qed.

Lemma by_operation_shows (b : block K) (v : pyval) (r : exn + unit)
  (es : list event) :
  by_operation b -> shows (block_show b v) r es ->
  shows (K := K) (show_of (block_op b) v) r es.
Proof. intros [_ Hshow] H w. rewrite <- Hshow. apply H. Qed.

(** A display that raises ends the blocks: its call is the last. *)
Lemma blocks_run_show_failed bs s r cs es s' (c' : call) (v : pyval)
  (e : exn) (es0 : list event) :
  blocks_run (K := K) c documents bs s r cs es s' ->
  Forall by_operation bs ->
  In c' cs -> call_result c' = inr v ->
  shows (K := K) (show_of (call_op c') v) (inl e) es0 ->
  r = inl e /\ exists before, cs = before ++ [c'].
Proof.
  induction 1 as [| b bs s e0 s' _ | b bs s v0 s' e0 es _ Hshow _
                  | b bs s v0 s' es r cs es' s'' _ Hshow _ _ IH];
    intros Hbs Hin Hres Hraises.
  - destruct Hin.
  - destruct Hin as [<- | []]. discriminate Hres.
  - destruct Hin as [<- | []]. simpl in Hres. inversion Hres; subst v0.
    inversion Hbs as [| ? ? Hb _]; subst.
    destruct (shows_unique K _ _ _ _ _ s (by_operation_shows _ _ _ _ Hb Hshow)
                Hraises) as [He _].
    inversion He; subst. split; [reflexivity | exists []; reflexivity].
  - inversion Hbs as [| ? ? Hb Hbs']; subst.
    destruct Hin as [<- | Hin].
    + simpl in Hres. inversion Hres; subst v0.
      destruct (shows_unique K _ _ _ _ _ s
                  (by_operation_shows _ _ _ _ Hb Hshow) Hraises) as [He _].
      discriminate He.
    + destruct (IH Hbs' Hin Hres Hraises) as [-> [before ->]].
      split; [reflexivity |].
      exists (logged c documents (block_op b) (inr v0) :: before). reflexivity.
Qed.

(** What the display of an answered call has shown stands on the screen
    under its subheader. *)
Lemma blocks_run_segment bs s r cs es s' (c' : call) (v : pyval) :
  blocks_run (K := K) c documents bs s r cs es s' ->
  Forall by_operation bs ->
  In c' cs -> call_result c' = inr v ->
  exists r0 es0 pre post,
    shows (K := K) (show_of (call_op c') v) r0 es0 /\
    es = pre ++ Subheader (title_of (call_op c')) :: es0 ++ post.
Proof.
  induction 1 as [| b bs s e0 s' _ | b bs s v0 s' e0 es _ Hshow _
                  | b bs s v0 s' es r cs es' s'' _ Hshow _ _ IH];
    intros Hbs Hin Hres.
  - destruct Hin.
  - destruct Hin as [<- | []]. discriminate Hres.
  - destruct Hin as [<- | []]. simpl in Hres. inversion Hres; subst v0.
    inversion Hbs as [| ? ? Hb _]; subst.
    exists (inl e0), es, [], []. split.
    + exact (by_operation_shows _ _ _ _ Hb Hshow).
    + simpl. rewrite app_nil_r. destruct Hb as [-> _]. reflexivity.
  - inversion Hbs as [| ? ? Hb Hbs']; subst.
    destruct Hin as [<- | Hin].
    + simpl in Hres. inversion Hres; subst v0.
      exists (inr tt), es, [], es'. split.
      * exact (by_operation_shows _ _ _ _ Hb Hshow).
      * simpl. destruct Hb as [-> _]. reflexivity.
    + destruct (IH Hbs' Hin Hres) as (r0 & es0 & pre & post & Hs & ->).
      exists r0, es0, (Subheader (block_title b) :: es ++ pre), post.
      split; [exact Hs |]. simpl. rewrite <- app_assoc. reflexivity.
Qed.

Lemma blocks_run_first_call b bs s r cs es s' :
  blocks_run (K := K) c documents (b :: bs) s r cs es s' ->
  exists ans cs', cs = logged c documents (block_op b) ans :: cs'.
Proof. inversion 1; subst; eauto. Qed.

Lemma firstn_incl {A : Type} (n : nat) (l : list A) (x : A) :
  In x (firstn n l) -> In x l.
Proof.
  revert l. induction n as [| n IH]; intros [| y l]; simpl; try tauto.
  intros [-> | H]; [left; reflexivity | right; exact (IH l H)].
Qed.

(** A display that ends normally is followed by the call of the next block;
    after the last block the blocks have passed. *)
Lemma blocks_run_next_call bs s r cs es s' (c' : call) (v : pyval)
  (es0 : list event) :
  blocks_run (K := K) c documents bs s r cs es s' ->
  Forall by_operation bs -> NoDup (map block_op bs) ->
  In c' cs -> call_result c' = inr v ->
  shows (K := K) (show_of (call_op c') v) (inr tt) es0 ->
  match next_in (map block_op bs) (call_op c') with
  | Some op' => In op' (map call_op cs)
  | None => r = inr tt
  end.
Proof.
  induction 1 as [| b bs s e0 s' _ | b bs s v0 s' e0 es _ Hshow _
                  | b bs s v0 s' es r cs es' s'' _ Hshow _ Hrest IH];
    intros Hbs Hnodup Hin Hres Hpasses.
  - destruct Hin.
  - destruct Hin as [<- | []]. discriminate Hres.
  - destruct Hin as [<- | []]. simpl in Hres. inversion Hres; subst v0.
    inversion Hbs as [| ? ? Hb _]; subst.
    destruct (shows_unique K _ _ _ _ _ s
                (by_operation_shows _ _ _ _ Hb Hshow) Hpasses) as [He _].
    discriminate He.
  - inversion Hbs as [| ? ? Hb Hbs']; subst.
    inversion Hnodup as [| ? ? Hfresh Hnodup']; subst.
    destruct Hin as [<- | Hin].
    + simpl call_op. simpl map. simpl next_in.
      destruct bs as [| b2 bs]; simpl.
      * inversion Hrest. reflexivity.
      * replace (operation_eqb (block_op b) (block_op b)) with true
          by (symmetry; apply operation_eqb_eq; reflexivity).
        destruct (blocks_run_first_call _ _ _ _ _ _ _ Hrest)
          as (ans & cs' & ->).
        right. left. reflexivity.
    + assert (In (call_op c') (map block_op bs)) as Hop.
      { destruct (blocks_run_ops _ _ _ _ _ _ _ _ _ Hrest) as [n Hn].
        apply (firstn_incl n). rewrite <- Hn. now apply in_map. }
      simpl map. simpl next_in.
      destruct (map block_op bs) as [| o2 os] eqn:Hops; [destruct Hop |].
      destruct (operation_eqb (block_op b) (call_op c')) eqn:Heq.
      * apply operation_eqb_eq in Heq. rewrite Heq in Hfresh. contradiction.
      * specialize (IH Hbs' Hnodup' Hin Hres Hpasses).
        destruct (next_in (o2 :: os) (call_op c')); [right |]; exact IH.
Qed.

End ByOperation.

(** ** What single displays do *)

Section Displays.

Variable K : sdk.

Lemma mapE_ok {A B : Type} (f : A -> exn + B) (ok : A -> bool) (l : list A) :
  (forall x, ok x = true -> exists y, f x = inr y) ->
  forallb ok l = true -> exists ys, mapE f l = inr ys.
Proof.
  intros Hok. induction l as [| x l IH]; simpl; intros H.
  - exists []. reflexivity.
  - apply andb_prop in H. destruct H as [Hx Hl].
    destruct (Hok x Hx) as [y ->]. destruct (IH Hl) as [ys ->].
    exists (y :: ys). reflexivity.
Qed.

Lemma mapE_not_ok {A B : Type} (f : A -> exn + B) (ok : A -> bool)
  (l : list A) :
  (forall x, ok x = false -> exists e, f x = inl e) ->
  forallb ok l = false -> exists e, mapE f l = inl e.
Proof.
  intros Hbad. induction l as [| x l IH]; simpl; intros H; [discriminate |].
  destruct (ok x) eqn:Hx; simpl in H.
  - destruct (f x) as [e | y]; [exists e; reflexivity |]. simpl.
    destruct (IH H) as [e ->]. exists e. reflexivity.
  - destruct (Hbad x Hx) as [e ->]. exists e. reflexivity.
Qed.

Lemma entity_row_ok (entity : pyval) :
  entity_ok entity = true -> exists r, entity_row entity = inr r.
Proof.
  unfold entity_ok, entity_row, has_attr.
  destruct (getattr entity "text") as [e | t]; [discriminate |].
  destruct (getattr entity "category") as [e | cat]; [discriminate |].
  destruct (getattr entity "confidence_score") as [e | x]; [discriminate |].
  simpl. intros Hx. rewrite (format_pct0_number x Hx). simpl. eauto.
Qed.

Lemma entity_row_not_ok (entity : pyval) :
  entity_ok entity = false -> exists e, entity_row entity = inl e.
Proof.
  unfold entity_ok, entity_row, has_attr.
  destruct (getattr entity "text") as [e | t];
    [intros _; exists e; reflexivity |].
  destruct (getattr entity "category") as [e | cat];
    [intros _; exists e; reflexivity |].
  destruct (getattr entity "confidence_score") as [e | x];
    [intros _; exists e; reflexivity |].
  simpl. unfold format_pct0, percent_ok.
  destruct x; simpl; intros H; try discriminate H;
    try (eexists; reflexivity).
  rewrite H. eexists. reflexivity.
Qed.

(** The rows the loop of lines 165 to 169 builds for entities that each
    have a category and a text. *)
Lemma pii_rows_of (entities : list pyval) (rows : list row) :
  Forall2
    (fun entity r =>
       exists attrs category text,
         entity = PObj attrs /\
         assoc "category" attrs = Some category /\
         assoc "text" attrs = Some text /\
         r = [("Type", CVal category); ("Text", CVal text)])
    entities rows ->
  mapE pii_row entities = inr rows.
Proof.
  induction 1 as [| x r xs rs (attrs & category & text & -> & Hc & Ht & ->)
                    _ IH]; simpl; [reflexivity |].
  unfold pii_row at 1. simpl. rewrite Hc, Ht. simpl. rewrite IH. reflexivity.
Qed.

(** What the entity block does with a non-empty list of entities. *)
Lemma show_entities_rows (attrs : list (string * pyval))
  (rest l : list pyval) :
  assoc "entities" attrs = Some (PList l) -> l <> [] ->
  match mapE entity_row (firstn 10 l) with
  | inr rows =>
      match dataframe_error K rows with
      | None =>
          shows (K := K) (show_entities (PList (PObj attrs :: rest))) (inr tt)
            [Dataframe rows; Markdown rule false]
      | Some e =>
          shows (K := K) (show_entities (PList (PObj attrs :: rest))) (inl e)
            []
      end
  | inl e =>
      shows (K := K) (show_entities (PList (PObj attrs :: rest))) (inl e) []
  end.
Proof.
  intros Hentities Hne.
  destruct (mapE entity_row (firstn 10 l)) as [e | rows] eqn:Hrows;
    [| destruct (dataframe_error K rows) as [e |] eqn:Haccepts];
    intros w;
    unfold show_entities, st_dataframe, bind, lift, raise, emit;
    cbn [item0 getattr];
    rewrite Hentities;
    (destruct l as [| x xs]; [contradiction |]);
    cbn [truthy slice10 bindE]; rewrite Hrows; try rewrite Haccepts;
    cbn [svc calls screen].
  - rewrite app_nil_r, world_eta. reflexivity.
  - rewrite app_nil_r, world_eta. reflexivity.
  - rewrite <- !app_assoc. reflexivity.
Qed.

(** What the PII block does with a non-empty list of entities of which the
    rows can be built and are accepted by [st.dataframe], when the redacted
    text is there and is a str. *)
Lemma show_pii_detected (attrs : list (string * pyval)) (rest l : list pyval)
  (rows : list row) (redacted : string) :
  assoc "entities" attrs = Some (PList l) -> l <> [] ->
  mapE pii_row l = inr rows ->
  dataframe_error K rows = None ->
  assoc "redacted_text" attrs = Some (PStr redacted) ->
  shows (K := K) (show_pii (PList (PObj attrs :: rest))) (inr tt)
    [Warning [Lit "⚠️ "; Dec (List.length l); Lit " PII entities detected"];
     Dataframe rows;
     Expander "👁️ View Redacted Text";
     Code (PStr redacted)].
Proof.
  intros Hentities Hne Hrows Haccepts Hredacted w.
  unfold show_pii, st_dataframe, st_code, bind, lift, emit.
  cbn [item0 getattr].
  rewrite Hentities. destruct l as [| x xs]; [contradiction |].
  cbn [truthy len iter bindE]. rewrite Hrows, Haccepts, Hredacted.
  cbn [str svc calls screen]. rewrite <- !app_assoc. reflexivity.
Qed.

(** A display of the PII answer that ends normally ends with the success
    message or with the redacted text. *)
Lemma show_pii_passed (v : pyval) (s : service K) (es : list event) :
  show_pii v (World s [] []) = (inr tt, World s [] es) ->
  es = [Success pii_none] \/
  exists front redacted, es = front ++ [Code redacted].
Proof.
  unfold show_pii. intros H.
  apply bind_lift_inr in H as (x & Hitem & H).
  apply bind_lift_inr in H as (entities & Hentities & H).
  destruct (truthy entities).
  - apply bind_lift_inr in H as (n & Hn & H). rewrite bind_emit in H.
    apply bind_lift_inr in H as (rows & Hrows & H).
    unfold st_dataframe at 1 in H.
    destruct (dataframe_error K rows); [discriminate H |].
    rewrite !bind_emit in H.
    apply bind_lift_inr in H as (redacted & Hredacted & H).
    unfold st_code in H.
    destruct (str redacted); [discriminate H |].
    unfold emit in H. cbn [svc calls screen] in H. inversion H.
    right.
    exists [Warning [Lit "⚠️ "; Dec n; Lit " PII entities detected"];
            Dataframe rows; Expander "👁️ View Redacted Text"], redacted.
    reflexivity.
  - unfold emit in H. cbn [svc calls screen] in H. inversion H.
    left. reflexivity.
Qed.

(** How the PII section ends: with the information that detection is not
    available, when the call or the display raised; with the success message
    or the redacted text, when the display ended normally. *)
Lemma pii_shown_last (s : service K) (ans : exn + pyval) (pes : list event) :
  pii_shown (K := K) ans pes ->
  (exists front,
      pes = front ++ [Info pii_unavailable] /\
      ((exists e, ans = inl e) \/
       (exists v e, ans = inr v /\ shows (K := K) (show_pii v) (inl e) front)))
  \/
  (exists v,
      ans = inr v /\ shows (K := K) (show_pii v) (inr tt) pes /\
      (pes = [Success pii_none] \/
       exists front redacted, pes = front ++ [Code redacted])).
Proof.
  destruct 1 as [e | v e es Hshows Hes | v es Hshows Hes].
  - left. exists []. split; [reflexivity |]. left. exists e. reflexivity.
  - left. exists es. split; [reflexivity |].
    right. exists v, e. split; [reflexivity | exact Hshows].
  - right. exists v. split; [reflexivity |]. split; [exact Hshows |].
    exact (show_pii_passed v s es (shows_fresh K _ _ _ s Hshows)).
Qed.

Lemma join_in (sep : text) (parts : list text) (t : text) (f : frag) :
  In t parts -> In f t -> In f (join sep parts).
Proof.
  induction parts as [| p ps IH]; intros Ht Hf; [destruct Ht |].
  destruct Ht as [-> | Ht].
  - destruct ps; simpl; [exact Hf | apply in_or_app; left; exact Hf].
  - destruct ps as [| q qs]; [destruct Ht |].
    change (In f (p ++ sep ++ join sep (q :: qs))).
    apply in_or_app. right. apply in_or_app. right. exact (IH Ht Hf).
Qed.

End Displays.

(** ** Runs, by their call log *)

Section RunsByCall.

Variable K : sdk.

Lemma run_ends (i : inputs) (s : service K) (r : exn + unit) (w : world K) :
  run K i s = (r, w) -> r = inr tt /\ page_run i s w.
Proof.
  intros Hrun. destruct (run_page K i s) as (w0 & Hrun0 & Hpage).
  rewrite Hrun0 in Hrun. inversion Hrun; subst. split; [reflexivity | exact Hpage].
Qed.

Lemma first_four_nodup : NoDup (map block_op (first_four K)).
Proof.
  simpl. repeat constructor; simpl; intuition discriminate.
Qed.

Lemma plain_filter_error (es : list event) :
  forallb plain es = true -> filter is_error es = [].
Proof.
  induction es as [| ev es IH]; simpl; [reflexivity |].
  intros H. apply andb_prop in H. destruct H as [Hev Hes].
  rewrite (IH Hes). destruct ev; try reflexivity; discriminate.
Qed.

Lemma prompt_is_plain (i : inputs) (ev : event) :
  ev = (if nonempty (user_text i)
        then Warning [Lit "⚠️ Please enter Azure credentials in the sidebar"]
        else Info [Lit "👈 Enter text to analyze"]) ->
  plain ev = true.
Proof. intros ->. destruct (nonempty (user_text i)); reflexivity. Qed.

Lemma plain_parts (ev : event) :
  plain ev = true ->
  is_spinner ev = false /\ is_error ev = false /\ is_pii_title ev = false.
Proof.
  unfold plain. rewrite negb_true_iff, !orb_false_iff. tauto.
Qed.

(** The display of a call that is in the log, read on an empty screen. *)
Lemma displayed_shows (s : service K) (op : operation) (v : pyval) :
  shows (K := K) (show_of op v)
    (fst (show_of op v (World s [] [])))
    (screen (snd (show_of op v (World s [] [])))).
Proof. apply shows_of_fresh, quiet_show_of. Qed.

End RunsByCall.

(** ** The right column, beyond the claims *)

Section Column.

Variable K : sdk.

(** The four ways a run can end, for a run named by a hypothesis
    [Hrun : run K i s = (r, w)]. *)
Ltac run_cases i s r w Hrun :=
  let Hr := fresh "Hr" in
  let Hpage := fresh "Hpage" in
  destruct (run_ends K i s r w Hrun) as [Hr Hpage]; subst r;
  destruct Hpage as [ev Hall Hev | Hall Hclick | e0 Hall Hclick Hinit
                     | cs es s' Hall Hclick Hinit Hcycle];
  cbn [calls screen svc] in *.

(** X1. No instance of [Exception] leaves the right column: whichever of
    them the constructor of the client, a call, [st.dataframe] or the
    processing of an answer raises, the handler of line 180 or of line 177
    catches it and the run ends normally.  (Line 180 is [except Exception]:
    what is not an instance of [Exception], as KeyboardInterrupt, is outside
    [exn] and outside this statement.) *)
Theorem no_exception_escapes (i : inputs) (s : service K) :
  fst (run K i s) = inr tt.
Proof.
  destruct (run_page K i s) as (w & Hrun & _). rewrite Hrun. reflexivity.
Qed.

(** X2. The spinner goes up exactly when the text, the endpoint and the key
    are non-empty and the button was pressed; otherwise no call is made and
    the service is left as it was. *)
Theorem spinner_iff_pressed_with_all_present (i : inputs) (s : service K)
  (r : exn + unit) (w : world K) :
  run K i s = (r, w) ->
  entered_requesting (screen w) = all_present i && analyze_clicked i /\
  (all_present i && analyze_clicked i = false -> calls w = [] /\ svc w = s).
Proof.
  intros Hrun. run_cases i s r w Hrun; rewrite Hall; try rewrite Hclick.
  - destruct (plain_parts ev (prompt_is_plain i ev Hev)) as (Hsp & _).
    unfold entered_requesting. simpl. rewrite Hsp. split; auto.
  - split; [reflexivity | auto].
  - split; [reflexivity | discriminate].
  - split; [reflexivity | discriminate].
Qed.

(** X3. When the constructor of the client raises, no request goes out and
    the service is left as it was; the exception is reported like a failure
    of a call: the error and the credentials hint. *)
Theorem client_constructor_failure_is_fatal (i : inputs) (s : service K)
  (e : exn) :
  all_present i = true -> analyze_clicked i = true ->
  client_init K (endpoint i) (api_key i) = Some e ->
  run K i s = (inr tt, World s [] (page_top ++ fatal_error e)).
Proof.
  intros Hall' Hclick' Hinit'.
  destruct (run_page K i s) as (w & Hrun & Hpage). rewrite Hrun.
  destruct Hpage as [ev Hall Hev | Hall Hclick | e0 Hall Hclick Hinit
                     | cs es s' Hall Hclick Hinit Hcycle];
    congruence.
Qed.

(** X4. A display that raises is as fatal as a call that raises: when the
    display of the answer of one of the first four calls raises, the cycle
    ends with the error of that exception and the hint, the call is the last
    call made, and the PII step is not attempted. *)
Theorem display_failure_in_steps_1_4_is_fatal (i : inputs) (s : service K)
  (r : exn + unit) (w : world K) (c : call) (v : pyval) (e : exn) :
  run K i s = (r, w) ->
  In c (calls w) -> is_pii_op (call_op c) = false -> call_result c = inr v ->
  fst (show_of (call_op c) v (World s [] [])) = inl e ->
  final_state (screen w) = Failed /\
  (exists shown,
      screen w = shown ++ fatal_error e /\ existsb is_error shown = false) /\
  (exists before, calls w = before ++ [c]) /\
  existsb is_pii_op (map call_op (calls w)) = false /\
  pii_outcome (screen w) = NotAttempted.
Proof.
  intros Hrun Hin Hop Hres Hraises.
  pose proof (displayed_shows K s (call_op c) v) as Hshows.
  rewrite Hraises in Hshows.
  run_cases i s r w Hrun; try (destruct Hin).
  destruct Hcycle as [e1 cs es s' Hblocks | cs es s' ans s'' pes Hblocks Hreq Hshown].
  - destruct (blocks_run_show_failed K _ _ _ _ _ _ _ _ _ _ _ _ Hblocks
                (first_four_by_operation K) Hin Hres Hshows) as [He Hlast].
    inversion He; subst e1.
    pose proof (blocks_run_plain _ _ _ _ _ _ _ _ _ Hblocks (first_four_plain K))
      as Hplain.
    destruct (screen_failed es e Hplain) as [Hfailed Hnot].
    destruct (blocks_run_ops _ _ _ _ _ _ _ _ _ Hblocks) as [n Hn].
    destruct (prefix_of_first_four K n) as (m & _ & Hpii).
    split; [exact Hfailed |]. split.
    + exists (page_top ++ es). split.
      * rewrite <- app_assoc. reflexivity.
      * rewrite existsb_app, (plain_no_error es Hplain). reflexivity.
    + split; [exact Hlast |]. split; [rewrite Hn; exact Hpii | exact Hnot].
  - apply in_app_or in Hin. destruct Hin as [Hin | [<- | []]];
      [| discriminate Hop].
    destruct (blocks_run_show_failed K _ _ _ _ _ _ _ _ _ _ _ _ Hblocks
                (first_four_by_operation K) Hin Hres Hshows) as [He _].
    discriminate He.
Qed.

(** X5. What was displayed stays: for every call of the log that was
    answered, the screen holds the subheader of its step followed by what the
    display of the answer showed, up to where it ended or raised; also in a
    cycle that fails later. *)
Theorem answered_calls_stay_on_screen (i : inputs) (s : service K)
  (r : exn + unit) (w : world K) (c : call) (v : pyval) :
  run K i s = (r, w) ->
  In c (calls w) -> call_result c = inr v ->
  exists before after,
    screen w = before ++ Subheader (title_of (call_op c))
                 :: screen (snd (show_of (call_op c) v (World s [] [])))
                 ++ after.
Proof.
  intros Hrun Hin Hres.
  pose proof (displayed_shows K s (call_op c) v) as Hshows.
  run_cases i s r w Hrun; try (destruct Hin).
  assert (forall r1 cs1 es1 s1,
             blocks_run (Client (endpoint i) (api_key i)) [user_text i]
               (first_four K) s r1 cs1 es1 s1 ->
             In c cs1 ->
             forall tail, exists before after,
               page_top ++ es1 ++ tail
               = before ++ Subheader (title_of (call_op c))
                   :: screen (snd (show_of (call_op c) v (World s [] [])))
                   ++ after) as Hsegment.
  { intros r1 cs1 es1 s1 Hblocks Hc tail.
    destruct (blocks_run_segment K _ _ _ _ _ _ _ _ _ _ Hblocks
                (first_four_by_operation K) Hc Hres)
      as (r0 & es0 & pre & post & Hs & ->).
    destruct (shows_unique K _ _ _ _ _ s Hs Hshows) as [_ ->].
    exists (page_top ++ pre), (post ++ tail).
    rewrite <- !app_assoc. simpl. rewrite <- !app_assoc. reflexivity. }
  destruct Hcycle as [e1 cs es s' Hblocks | cs es s' ans s'' pes Hblocks Hreq Hshown].
  - exact (Hsegment _ _ _ _ Hblocks Hin _).
  - apply in_app_or in Hin. destruct Hin as [Hin | [<- | []]].
    + exact (Hsegment _ _ _ _ Hblocks Hin _).
    + cbn [logged call_op call_result] in *. subst ans.
      cbn [show_of title_of] in *.
      exists (page_top ++ es).
      inversion Hshown as [| v' e es0 Hs _ | v' es0 Hs _]; subst;
        destruct (shows_unique K _ _ _ _ _ s Hs Hshows) as [_ ->].
      * exists [Info pii_unavailable]. rewrite <- !app_assoc. reflexivity.
      * exists []. rewrite app_nil_r, <- !app_assoc. reflexivity.
Qed.

(** X6. The steps follow one another: when a call was answered and the
    display of its answer ended normally, the call of the next operation of
    the fixed order is made. *)
Theorem passed_display_is_followed_by_the_next_call (i : inputs)
  (s : service K) (r : exn + unit) (w : world K) (c : call) (v : pyval)
  (op' : operation) :
  run K i s = (r, w) ->
  In c (calls w) -> call_result c = inr v ->
  fst (show_of (call_op c) v (World s [] [])) = inr tt ->
  next_op (call_op c) = Some op' ->
  In op' (map call_op (calls w)).
Proof.
  intros Hrun Hin Hres Hpasses Hnext.
  pose proof (displayed_shows K s (call_op c) v) as Hshows.
  rewrite Hpasses in Hshows.
  run_cases i s r w Hrun; try (destruct Hin).
  destruct Hcycle as [e1 cs es s' Hblocks | cs es s' ans s'' pes Hblocks Hreq Hshown].
  - pose proof (blocks_run_next_call K _ _ _ _ _ _ _ _ _ _ _ Hblocks
                  (first_four_by_operation K) (first_four_nodup K) Hin Hres
                  Hshows) as Hn.
    destruct (call_op c); simpl in Hn, Hnext; inversion Hnext; subst;
      try exact Hn; discriminate Hn.
  - rewrite map_app. apply in_or_app.
    apply in_app_or in Hin. destruct Hin as [Hin | [<- | []]];
      [| discriminate Hnext].
    pose proof (blocks_run_next_call K _ _ _ _ _ _ _ _ _ _ _ Hblocks
                  (first_four_by_operation K) (first_four_nodup K) Hin Hres
                  Hshows) as Hn.
    destruct (call_op c); simpl in Hn, Hnext; inversion Hnext; subst;
      try (left; exact Hn).
    right. left. reflexivity.
Qed.

(** X7. A cycle succeeds exactly when it reaches the PII call: the PII step
    cannot make a cycle fail, and a cycle that stops before it has failed or
    was never started. *)
Theorem succeeds_iff_pii_call_is_made (i : inputs) (s : service K)
  (r : exn + unit) (w : world K) :
  run K i s = (r, w) ->
  (final_state (screen w) = Succeeded <->
   In RecognizePiiEntities (map call_op (calls w))).
Proof.
  intros Hrun. destruct (run_ends K i s r w Hrun) as [_ Hpage]. split.
  - intros Hsucc.
    destruct Hpage as [ev Hall Hev | Hall Hclick | e0 Hall Hclick Hinit
                       | cs es s' Hall Hclick Hinit Hcycle];
      cbn [calls screen] in *.
    + destruct (plain_parts ev (prompt_is_plain i ev Hev)) as (Hsp & _).
      unfold final_state, entered_requesting in Hsucc. simpl in Hsucc.
      rewrite Hsp in Hsucc. discriminate.
    + discriminate Hsucc.
    + discriminate Hsucc.
    + destruct (cycle_run_screen _ _ _ _ _ _ _ Hcycle)
        as [(es4 & e & -> & Hplain) | (es4 & pes & -> & _ & _ & Hops)].
      * destruct (screen_failed es4 e Hplain) as [Hfailed _].
        rewrite Hfailed in Hsucc. discriminate.
      * rewrite Hops. simpl. tauto.
  - intros Hin. apply in_map_iff in Hin. destruct Hin as (c & Hop & Hin).
    destruct (page_run_pii_call K i s w c Hpage Hin Hop)
      as (es4 & pes & -> & Hplain & Hshown & _).
    exact (proj1 (screen_passed es4 pes Hplain (pii_shown_plain K _ _ Hshown))).
Qed.

End Column.

Section Lists.

Variable K : sdk.

(** X8. The table of entities is built from the first ten entities alone,
    whatever comes after the tenth.  When each of the ten has a text, a
    category and a confidence score that the format [.0%] takes (a float, a
    bool, an int that fits a float), the rows are built, one for each of the
    ten in their order, and handed to [st.dataframe]: when it accepts them
    the table is shown with these rows, and when it raises the display
    raises that exception and nothing of the table is shown.  When one of
    the ten lacks an attribute or has another confidence score, the display
    raises and nothing of the table is shown. *)
Theorem entity_table_needs_first_ten_well_formed
  (attrs : list (string * pyval)) (rest l : list pyval) :
  assoc "entities" attrs = Some (PList l) -> l <> [] ->
  (forallb entity_ok (firstn 10 l) = true ->
   exists rows,
     Forall2
       (fun entity row =>
          exists a text category score,
            entity = PObj a /\
            assoc "text" a = Some text /\
            assoc "category" a = Some category /\
            assoc "confidence_score" a = Some score /\
            row = [("Entity", CVal text); ("Category", CVal category);
                   ("Confidence", CText [Pct0 score])])
       (firstn 10 l) rows /\
     (dataframe_error K rows = None ->
      shows (K := K) (show_entities (PList (PObj attrs :: rest))) (inr tt)
        [Dataframe rows; Markdown rule false]) /\
     (forall e,
         dataframe_error K rows = Some e ->
         shows (K := K) (show_entities (PList (PObj attrs :: rest))) (inl e)
           [])) /\
  (forallb entity_ok (firstn 10 l) = false ->
   exists e,
     shows (K := K) (show_entities (PList (PObj attrs :: rest))) (inl e) []).
Proof.
  intros Hentities Hne.
  pose proof (show_entities_rows K attrs rest l Hentities Hne) as Hshow.
  split; intros Hok.
  - destruct (mapE_ok entity_row entity_ok (firstn 10 l) entity_row_ok Hok)
      as [rows Hrows].
    rewrite Hrows in Hshow. exists rows.
    split; [exact (entity_rows_of _ _ Hrows) |].
    split.
    + intros Haccepts. rewrite Haccepts in Hshow. exact Hshow.
    + intros e Hrefuses. rewrite Hrefuses in Hshow. exact Hshow.
  - destruct (mapE_not_ok entity_row entity_ok (firstn 10 l)
                entity_row_not_ok Hok) as [e He].
    rewrite He in Hshow. exists e. exact Hshow.
Qed.

(** X9. The PII table is not capped: when the PII call answers with a
    non-empty list of entities that each have a category and a text, and
    with a redacted text that is a str, and [st.dataframe] accepts the rows,
    one for each entity in their order, the section shows the count of all
    the entities, the table with all these rows, and the redacted text; the
    outcome is that personal information was detected. *)
Theorem pii_table_is_not_capped (i : inputs) (s : service K)
  (r : exn + unit) (w : world K) (c : call)
  (attrs : list (string * pyval)) (rest l : list pyval) (rows : list row)
  (redacted : string) :
  run K i s = (r, w) ->
  In c (calls w) -> call_op c = RecognizePiiEntities ->
  call_result c = inr (PList (PObj attrs :: rest)) ->
  assoc "entities" attrs = Some (PList l) -> l <> [] ->
  Forall2
    (fun entity row =>
       exists a category text,
         entity = PObj a /\
         assoc "category" a = Some category /\
         assoc "text" a = Some text /\
         row = [("Type", CVal category); ("Text", CVal text)])
    l rows ->
  dataframe_error K rows = None ->
  assoc "redacted_text" attrs = Some (PStr redacted) ->
  List.length rows = List.length l /\
  (exists shown,
      screen w
      = shown ++ [Subheader pii_title;
                  Warning [Lit "⚠️ "; Dec (List.length l);
                           Lit " PII entities detected"];
                  Dataframe rows;
                  Expander "👁️ View Redacted Text";
                  Code (PStr redacted)]) /\
  pii_outcome (screen w) = Detected /\
  final_state (screen w) = Succeeded.
Proof.
  intros Hrun Hin Hop Hres Hentities Hne Hall Haccepts Hredacted.
  destruct (run_ends K i s r w Hrun) as [_ Hpage].
  pose proof (pii_rows_of l rows Hall) as Hrows.
  pose proof (show_pii_detected K attrs rest l rows redacted Hentities Hne
                Hrows Haccepts Hredacted) as Hshow.
  destruct (page_run_pii_call K i s w c Hpage Hin Hop)
    as (es4 & pes & Hscreen & Hplain & Hshown & _).
  destruct (screen_passed es4 pes Hplain (pii_shown_plain K _ _ Hshown))
    as (Hstate & _ & Hsec).
  rewrite Hres in Hshown.
  assert (pes = [Warning [Lit "⚠️ "; Dec (List.length l);
                          Lit " PII entities detected"];
                 Dataframe rows;
                 Expander "👁️ View Redacted Text";
                 Code (PStr redacted)]) as Hpes.
  { inversion Hshown as [| v e es Hs _ | v es Hs _]; subst;
      destruct (shows_unique K _ _ _ _ _ s Hs Hshow) as [Hr Hes];
      [discriminate Hr | exact Hes]. }
  split; [exact (mapE_length _ _ _ Hrows) |].
  split; [| split].
  - exists (page_top ++ es4).
    rewrite Hscreen, Hpes, <- app_assoc. reflexivity.
  - unfold pii_outcome. rewrite Hscreen, Hsec, Hpes. reflexivity.
  - rewrite <- Hscreen in Hstate. exact Hstate.
Qed.

(** X10. The information that PII detection is not available is the outcome
    exactly when the PII call raised or the display of its answer raised. *)
Theorem unavailable_iff_pii_step_raised (i : inputs) (s : service K)
  (r : exn + unit) (w : world K) (c : call) :
  run K i s = (r, w) ->
  In c (calls w) -> call_op c = RecognizePiiEntities ->
  (pii_outcome (screen w) = Unavailable <->
   (exists e, call_result c = inl e) \/
   (exists v e,
       call_result c = inr v /\
       fst (show_pii v (World s [] [])) = inl e)).
Proof.
  intros Hrun Hin Hop.
  destruct (run_ends K i s r w Hrun) as [_ Hpage].
  destruct (page_run_pii_call K i s w c Hpage Hin Hop)
    as (es4 & pes & Hscreen & Hplain & Hshown & _).
  destruct (screen_passed es4 pes Hplain (pii_shown_plain K _ _ Hshown))
    as (_ & _ & Hsec).
  unfold pii_outcome. rewrite Hscreen, Hsec.
  destruct (pii_shown_last K s _ _ Hshown)
    as [(front & -> & Hwhy) | (v & Hres & Hshows & Hlast)].
  - rewrite rev_app_distr. simpl. split; [intros _ | reflexivity].
    destruct Hwhy as [He | (v & e & Hres & Hshows)]; [left; exact He |].
    right. exists v, e. split; [exact Hres |].
    rewrite (shows_fresh K _ _ _ s Hshows). reflexivity.
  - split.
    + destruct Hlast as [-> | (front & redacted & ->)];
        [| rewrite rev_app_distr]; simpl; discriminate.
    + intros [[e He] | (v' & e & Hres' & Hraises)]; [congruence |].
      rewrite Hres in Hres'. inversion Hres'; subst v'.
      rewrite (shows_fresh K _ _ _ s Hshows) in Hraises. discriminate Hraises.
Qed.

(** X11. Key phrases go into the page as they are: when the key-phrase call
    answers with a list of strings, the one markdown of the phrases, which is
    rendered with [unsafe_allow_html], is the spans of the first ten phrases
    with a space between two of them, and each of these phrases stands in it
    as it was returned, unescaped; also in a cycle that fails later. *)
Theorem key_phrases_are_embedded_verbatim (i : inputs) (s : service K)
  (r : exn + unit) (w : world K) (c : call)
  (attrs : list (string * pyval)) (rest : list pyval) (names : list string)
  (p : string) :
  run K i s = (r, w) ->
  In c (calls w) -> call_op c = ExtractKeyPhrases ->
  call_result c = inr (PList (PObj attrs :: rest)) ->
  assoc "key_phrases" attrs = Some (PList (map PStr names)) ->
  In p (firstn 10 names) ->
  exists html,
    In (Markdown html true) (screen w) /\
    Lit " " :: html
    = flat_map
        (fun name => [Lit " "; Lit span_open; Lit name; Lit "</span>"])
        (firstn 10 names) /\
    In (Lit p) html.
Proof.
  intros Hrun Hin Hop Hres Hphrases Hp.
  destruct (run_ends K i s r w Hrun) as [_ Hpage].
  assert (is_pii_op (call_op c) = false) as Hnot
    by (rewrite Hop; reflexivity).
  destruct (page_run_shown K i s w c _ Hpage Hin Hnot Hres)
    as (b & r0 & es0 & Hb & Hbop & Hshows & Hincl & _).
  rewrite Hop in Hbop.
  rewrite (first_four_key_phrases K b Hb Hbop) in Hshows. simpl in Hshows.
  destruct (shows_unique K _ _ _ _ _ s Hshows
              (show_key_phrases_shows K attrs rest names Hphrases))
    as [_ ->].
  exists (join [Lit " "]
            (map (fun name => [Lit span_open; Lit name; Lit "</span>"])
               (firstn 10 names))).
  split; [| split].
  - apply Hincl. left. destruct names; [destruct Hp | reflexivity].
  - rewrite join_flat_map, flat_map_map; [reflexivity |].
    destruct (firstn 10 names); [destruct Hp | discriminate].
  - apply (join_in _ _ [Lit span_open; Lit p; Lit "</span>"]).
    + exact (in_map (fun name => [Lit span_open; Lit name; Lit "</span>"])
               _ _ Hp).
    + right. left. reflexivity.
Qed.

(** X12. The state of a finished run and the outcome of the PII step go
    together: a failed cycle shows exactly one error widget, last but for the
    hint, and nothing of the PII step; a cycle that succeeded shows no error
    and has attempted the PII step; a run that stayed idle made no call. *)
Theorem final_state_and_pii_outcome (i : inputs) (s : service K)
  (r : exn + unit) (w : world K) :
  run K i s = (r, w) ->
  match final_state (screen w) with
  | Failed =>
      pii_outcome (screen w) = NotAttempted /\
      List.length (filter is_error (screen w)) = 1 /\
      exists shown e, screen w = shown ++ fatal_error e
  | Succeeded =>
      pii_outcome (screen w) <> NotAttempted /\
      existsb is_error (screen w) = false
  | Idle =>
      calls w = [] /\ svc w = s /\ pii_outcome (screen w) = NotAttempted
  | Requesting => False
  end.
Proof.
  intros Hrun. destruct (run_ends K i s r w Hrun) as [_ Hpage].
  destruct Hpage as [ev Hall Hev | Hall Hclick | e0 Hall Hclick Hinit
                     | cs es s' Hall Hclick Hinit Hcycle];
    cbn [calls screen svc].
  - destruct (plain_parts ev (prompt_is_plain i ev Hev)) as (Hsp & _ & Htitle).
    unfold final_state, entered_requesting, pii_outcome. simpl.
    rewrite Hsp, Htitle. repeat split; reflexivity.
  - repeat split; reflexivity.
  - change (final_state (page_top ++ fatal_error e0)) with Failed.
    split; [reflexivity |]. split; [reflexivity |].
    exists page_top, e0. reflexivity.
  - destruct Hcycle as [e1 cs es s' Hblocks | cs es s' ans s'' pes Hblocks Hreq Hshown];
      pose proof (blocks_run_plain _ _ _ _ _ _ _ _ _ Hblocks (first_four_plain K))
        as Hplain.
    + destruct (screen_failed es e1 Hplain) as [-> Hnot].
      split; [exact Hnot |]. split.
      * rewrite !filter_app, (plain_filter_error es Hplain). reflexivity.
      * exists (page_top ++ es), e1. rewrite <- app_assoc. reflexivity.
    + destruct (screen_passed es pes Hplain (pii_shown_plain K _ _ Hshown))
        as (-> & Herr & Hsec).
      split; [| exact Herr].
      unfold pii_outcome. rewrite Hsec.
      destruct (pii_shown_last K s' _ _ Hshown)
        as [(front & -> & _) | (v & _ & _ & [-> | (front & redacted & ->)])];
        try rewrite rev_app_distr; simpl; discriminate.
Qed.

End Lists.

(** ** The whole page *)

Section WholePage.

Variable K : sdk.

(** The page once the default text is found: the right column is run and
    the footer follows. *)
Lemma page_with_default (p : page_inputs) (s : service K) (d : string) :
  default_text (sample_choice p) = inr d ->
  exists w,
    run K (Inputs (typed_endpoint p) (typed_key p) (text_of p d) (pressed p)) s
    = (inr tt, w) /\
    page_run (Inputs (typed_endpoint p) (typed_key p) (text_of p d) (pressed p))
      s w /\
    page K p s
    = (inr tt,
       Rendered (svc w) (calls w)
         ((page_head ++ input_column d (text_of p d)
           ++ map Analysis (screen w)) ++ page_foot)).
Proof.
  intros Hd.
  destruct (run_page K (Inputs (typed_endpoint p) (typed_key p) (text_of p d)
                          (pressed p)) s) as (w & Hrun & Hpage).
  exists w. split; [exact Hrun |]. split; [exact Hpage |].
  unfold page. rewrite Hd. cbv zeta. rewrite Hrun. reflexivity.
Qed.

(** Every option of the selectbox but Custom is a key of [samples]. *)
Lemma default_text_of_option (choice : string) :
  In choice options -> exists d, default_text choice = inr d.
Proof.
  intros H. simpl in H.
  repeat (destruct H as [<- | H]; [eexists; reflexivity |]).
  destruct H.
Qed.

Lemma sample_is_nonempty (key sample : string) :
  assoc key samples = Some sample -> nonempty sample = true.
Proof.
  unfold samples. simpl.
  repeat match goal with
         | |- context [if ?b then _ else _] => destruct b
         end;
    intros H; inversion H; reflexivity.
Qed.

(** X13. Every option the selectbox offers lets the script run to its last
    line: the lookup of the sample does not raise, nothing leaves the right
    column, and the footer of the sidebar is rendered after everything
    else. *)
Theorem page_runs_to_its_last_line (p : page_inputs) (s : service K) :
  In (sample_choice p) options ->
  fst (page K p s) = inr tt /\
  exists middle,
    page_widgets (snd (page K p s)) = page_head ++ middle ++ page_foot.
Proof.
  intros Hchoice.
  destruct (default_text_of_option _ Hchoice) as [d Hd].
  destruct (page_with_default p s d Hd) as (w & _ & _ & ->).
  split; [reflexivity |].
  exists (input_column d (text_of p d) ++ map Analysis (screen w)).
  simpl. rewrite <- !app_assoc. reflexivity.
Qed.

(** X14. A sample that is chosen and not edited is what is analysed: the
    text area holds it, the caption counts it, and every call made has it as
    its one document; with an endpoint and a key the button is there, and
    when it was pressed and the client could be built the sentiment call is
    made first, with the sample. *)
Theorem chosen_sample_is_analysed (p : page_inputs) (s : service K)
  (sample : string) :
  assoc (sample_choice p) samples = Some sample ->
  sample_choice p <> "Custom" ->
  typed_text p = None ->
  In (TextArea "Enter text to analyze:" sample 200
        "Type or paste your text here...")
     (page_widgets (snd (page K p s))) /\
  In (Caption sample) (page_widgets (snd (page K p s))) /\
  Forall (fun c => call_documents c = [sample])
    (page_calls (snd (page K p s))) /\
  (nonempty (typed_endpoint p) && nonempty (typed_key p) = true ->
   In (Analysis (Button "🚀 Analyze Text"))
      (page_widgets (snd (page K p s))) /\
   (pressed p = true ->
    client_init K (typed_endpoint p) (typed_key p) = None ->
    exists c rest,
      page_calls (snd (page K p s)) = c :: rest /\
      call_op c = AnalyzeSentiment /\ call_documents c = [sample])).
Proof.
  intros Hsample Hcustom Hedited.
  assert (default_text (sample_choice p) = inr sample) as Hd.
  { unfold default_text. apply String.eqb_neq in Hcustom.
    rewrite Hcustom, Hsample. reflexivity. }
  pose proof (sample_is_nonempty _ _ Hsample) as Hne.
  destruct (page_with_default p s sample Hd) as (w & _ & Hpage & ->).
  unfold text_of in *. rewrite Hedited in *.
  cbn [snd page_widgets page_calls].
  unfold input_column. rewrite Hne.
  split; [apply in_or_app; left; apply in_or_app; right; left; reflexivity |].
  split; [apply in_or_app; left; apply in_or_app; right; right; left;
          reflexivity |].
  assert (forall ev, In ev (screen w) ->
            In (Analysis ev)
              ((page_head
                ++ [TextArea "Enter text to analyze:" sample 200
                      "Type or paste your text here..."; Caption sample]
                ++ map Analysis (screen w)) ++ page_foot)) as Hright.
  { intros ev Hev. apply in_or_app. left. apply in_or_app. right.
    apply in_or_app. right. apply in_map. exact Hev. }
  destruct Hpage as [ev Hall Hev | Hall Hclick | e0 Hall Hclick Hinit
                     | cs es s' Hall Hclick Hinit Hcycle];
    unfold all_present in Hall; cbn [user_text endpoint api_key] in *;
    rewrite Hne in Hall; cbn [andb calls screen] in *.
  - split; [constructor |]. intros Hcred. congruence.
  - split; [constructor |]. intros _. split.
    + apply Hright. right. left. reflexivity.
    + cbn [analyze_clicked] in Hclick. congruence.
  - split; [constructor |]. intros _. split.
    + apply Hright. right. left. reflexivity.
    + congruence.
  - pose proof (cycle_run_issued _ _ _ _ _ _ _ Hcycle) as Hissued.
    split.
    + eapply Forall_impl; [| exact Hissued]. intros c [Hdoc _]. exact Hdoc.
    + intros _. split; [apply Hright; right; left; reflexivity |].
      intros _ _.
      destruct Hcycle as [e1 cs es s' Hblocks | cs es s' ans s'' pes Hblocks Hreq Hshown];
        destruct (blocks_run_first_call _ _ _ _ _ _ _ _ _ _ Hblocks)
          as (ans1 & cs' & ->);
        eexists; eexists; (split; [reflexivity | split; reflexivity]).
Qed.

End WholePage.

(** ** The further properties on example runs *)

Lemma spinner_iff_pressed_with_all_present_witness :
  entered_requesting (screen (snd no_click_run))
  = all_present no_click_inputs && analyze_clicked no_click_inputs /\
  (all_present no_click_inputs && analyze_clicked no_click_inputs = false ->
   calls (snd no_click_run) = [] /\ svc (snd no_click_run) = tt).
Proof.
  assert (run (mock love_answers) no_click_inputs tt
          = (fst no_click_run, snd no_click_run)) as Hrun by evaluated.
  exact (spinner_iff_pressed_with_all_present (mock love_answers)
           no_click_inputs tt _ _ Hrun).
Defined.

(** The constructor rejects the endpoint: the error, the hint, no call. *)
Lemma client_constructor_failure_is_fatal_witness :
  run no_client_mock love_inputs tt
  = (inr tt, World (K := no_client_mock) tt [] (page_top ++ fatal_error bad_endpoint)).
Proof.
  assert (all_present love_inputs = true) as Hall by evaluated.
  exact (client_constructor_failure_is_fatal no_client_mock love_inputs tt
           bad_endpoint Hall eq_refl eq_refl).
Defined.

(** The sentiment call answers with an empty batch: [[0]] raises and the
    cycle fails after that one call. *)
Lemma display_failure_in_steps_1_4_is_fatal_witness :
  final_state (screen (snd empty_batch_run)) = Failed /\
  (exists shown,
      screen (snd empty_batch_run) = shown ++ fatal_error IndexError /\
      existsb is_error shown = false) /\
  (exists before,
      calls (snd empty_batch_run)
      = before ++ [love_call empty_batch_answers AnalyzeSentiment]) /\
  existsb is_pii_op (map call_op (calls (snd empty_batch_run))) = false /\
  pii_outcome (screen (snd empty_batch_run)) = NotAttempted.
Proof.
  assert (run (mock empty_batch_answers) love_inputs tt
          = (fst empty_batch_run, snd empty_batch_run)) as Hrun by evaluated.
  assert (In (love_call empty_batch_answers AnalyzeSentiment)
            (calls (snd empty_batch_run))) as Hin by evaluated.
  exact (display_failure_in_steps_1_4_is_fatal (mock empty_batch_answers)
           love_inputs tt _ _ _ (PList []) IndexError
           Hrun Hin eq_refl eq_refl eq_refl).
Defined.

(** The language answer lacks the confidence score: the name of the
    language was shown before the display raised, and it stays. *)
Lemma answered_calls_stay_on_screen_witness :
  (exists before after,
      screen (snd no_confidence_run)
      = before ++ Subheader (title_of DetectLanguage)
          :: screen
               (snd (show_of (K := mock no_confidence_answers) DetectLanguage
                       (PList [PObj [("primary_language",
                                      PObj [("name", PStr "English");
                                            ("iso6391_name", PStr "en")])]])
                       (World (K := mock no_confidence_answers) tt [] [])))
          ++ after) /\
  screen
    (snd (show_of (K := mock no_confidence_answers) DetectLanguage
            (PList [PObj [("primary_language",
                           PObj [("name", PStr "English");
                                 ("iso6391_name", PStr "en")])]])
            (World (K := mock no_confidence_answers) tt [] [])))
  = [Columns 2;
     Info [Lit "**"; Lit "English"; Lit "** ("; Lit "en"; Lit ")"]] /\
  final_state (screen (snd no_confidence_run)) = Failed.
Proof.
  assert (run (mock no_confidence_answers) love_inputs tt
          = (fst no_confidence_run, snd no_confidence_run)) as Hrun
    by evaluated.
  assert (In (love_call no_confidence_answers DetectLanguage)
            (calls (snd no_confidence_run))) as Hin by evaluated.
  split; [| split; evaluated].
  exact (answered_calls_stay_on_screen (mock no_confidence_answers)
           love_inputs tt _ _ _ _ Hrun Hin eq_refl).
Defined.

Lemma passed_display_is_followed_by_the_next_call_witness :
  In ExtractKeyPhrases (map call_op (calls (snd love_run))).
Proof.
  assert (run (mock love_answers) love_inputs tt
          = (fst love_run, snd love_run)) as Hrun by evaluated.
  assert (In (love_call love_answers AnalyzeSentiment) (calls (snd love_run)))
    as Hin by evaluated.
  assert (fst (show_of (K := mock love_answers) AnalyzeSentiment
                 (PList [PObj [("sentiment", PStr "positive");
                               ("confidence_scores",
                                PObj [("positive", PFloat (95 # 100));
                                      ("negative", PFloat (2 # 100));
                                      ("neutral", PFloat (3 # 100))])]])
                 (World (K := mock love_answers) tt [] []))
          = inr tt) as Hpasses by evaluated.
  exact (passed_display_is_followed_by_the_next_call (mock love_answers)
           love_inputs tt _ _ (love_call love_answers AnalyzeSentiment) _
           ExtractKeyPhrases Hrun Hin eq_refl Hpasses eq_refl).
Defined.

Lemma succeeds_iff_pii_call_is_made_witness :
  final_state (screen (snd pii_fails_run)) = Succeeded <->
  In RecognizePiiEntities (map call_op (calls (snd pii_fails_run))).
Proof.
  assert (run (mock pii_fails_answers) love_inputs tt
          = (fst pii_fails_run, snd pii_fails_run)) as Hrun by evaluated.
  exact (succeeds_iff_pii_call_is_made (mock pii_fails_answers) love_inputs
           tt _ _ Hrun).
Defined.

(** Ten entities as they should be, an eleventh that is [None]: the table
    has its ten rows. *)
Lemma entity_table_needs_first_ten_well_formed_witness :
  exists rows,
    Forall2
      (fun entity row =>
         exists a text category score,
           entity = PObj a /\
           assoc "text" a = Some text /\
           assoc "category" a = Some category /\
           assoc "confidence_score" a = Some score /\
           row = [("Entity", CVal text); ("Category", CVal category);
                  ("Confidence", CText [Pct0 score])])
      (firstn 10 ten_entities_and_none) rows /\
    (dataframe_error (mock love_answers) rows = None ->
     shows (K := mock love_answers)
       (show_entities
          (PList [PObj [("entities", PList ten_entities_and_none)]]))
       (inr tt) [Dataframe rows; Markdown rule false]) /\
    (forall e,
        dataframe_error (mock love_answers) rows = Some e ->
        shows (K := mock love_answers)
          (show_entities
             (PList [PObj [("entities", PList ten_entities_and_none)]]))
          (inl e) []).
Proof.
  assert (ten_entities_and_none <> []) as Hne by (vm_compute; discriminate).
  assert (forallb entity_ok (firstn 10 ten_entities_and_none) = true) as Hok
    by evaluated.
  exact (proj1 (entity_table_needs_first_ten_well_formed (mock love_answers)
                  [("entities", PList ten_entities_and_none)] []
                  ten_entities_and_none eq_refl Hne) Hok).
Defined.

(** The ten rows on the screen of a run, and the run under a
    [st.dataframe] that refuses them: the cycle fails at the table. *)
Example ten_rows_shown_or_refused :
  In (Dataframe
        (map (fun t => [("Entity", CVal (PStr t));
                        ("Category", CVal (PStr "Location"));
                        ("Confidence", CText [Pct0 (PFloat (9 # 10))])])
           ["a"; "b"; "c"; "d"; "e"; "f"; "g"; "h"; "i"; "j"]))
     (screen (snd many_run)) /\
  final_state (screen (snd (run (refusing_frames many_answers) love_inputs tt)))
  = Failed /\
  map call_op (calls (snd (run (refusing_frames many_answers) love_inputs tt)))
  = [AnalyzeSentiment; ExtractKeyPhrases; DetectLanguage; RecognizeEntities].
Proof. split; [evaluated | split; evaluated]. Qed.

(** Twelve PII entities: twelve rows, and the count in the warning is 12. *)
Lemma pii_table_is_not_capped_witness :
  List.length twelve_pii_rows = List.length twelve_pii /\
  (exists shown,
      screen (snd twelve_pii_run)
      = shown ++ [Subheader pii_title;
                  Warning [Lit "⚠️ "; Dec (List.length twelve_pii);
                           Lit " PII entities detected"];
                  Dataframe twelve_pii_rows;
                  Expander "👁️ View Redacted Text";
                  Code (PStr "****")]) /\
  pii_outcome (screen (snd twelve_pii_run)) = Detected /\
  final_state (screen (snd twelve_pii_run)) = Succeeded.
Proof.
  assert (run (mock twelve_pii_answers) love_inputs tt
          = (fst twelve_pii_run, snd twelve_pii_run)) as Hrun by evaluated.
  assert (In (love_call twelve_pii_answers RecognizePiiEntities)
            (calls (snd twelve_pii_run))) as Hin by evaluated.
  assert (twelve_pii <> []) as Hne by (vm_compute; discriminate).
  assert (Forall2
            (fun entity row =>
               exists a category text,
                 entity = PObj a /\
                 assoc "category" a = Some category /\
                 assoc "text" a = Some text /\
                 row = [("Type", CVal category); ("Text", CVal text)])
            twelve_pii twelve_pii_rows) as Hrows
    by (unfold twelve_pii, twelve_pii_rows; simpl;
        repeat (apply Forall2_cons;
                  [eexists _, _, _; repeat split; reflexivity |]);
        apply Forall2_nil).
  exact (pii_table_is_not_capped (mock twelve_pii_answers) love_inputs tt
           _ _ _ twelve_pii_attrs [] twelve_pii twelve_pii_rows "****"
           Hrun Hin eq_refl eq_refl eq_refl Hne Hrows eq_refl eq_refl).
Defined.

(** Under a [st.dataframe] that refuses the rows, the same answer ends as
    not available. *)
Example refused_pii_table_is_unavailable :
  pii_outcome
    (screen (snd (run (refusing_frames twelve_pii_answers) love_inputs tt)))
  = Unavailable /\
  final_state
    (screen (snd (run (refusing_frames twelve_pii_answers) love_inputs tt)))
  = Succeeded.
Proof. split; evaluated. Qed.

Example twelve_pii_length : List.length twelve_pii = 12.
Proof. reflexivity. Qed.

Lemma unavailable_iff_pii_step_raised_witness :
  pii_outcome (screen (snd john_run)) = Unavailable <->
  (exists e,
      call_result (love_call john_answers RecognizePiiEntities) = inl e) \/
  (exists v e,
      call_result (love_call john_answers RecognizePiiEntities) = inr v /\
      fst (show_pii v (World (K := mock john_answers) tt [] [])) = inl e).
Proof.
  assert (run (mock john_answers) love_inputs tt
          = (fst john_run, snd john_run)) as Hrun by evaluated.
  assert (In (love_call john_answers RecognizePiiEntities)
            (calls (snd john_run))) as Hin by evaluated.
  exact (unavailable_iff_pii_step_raised (mock john_answers) love_inputs tt
           _ _ _ Hrun Hin eq_refl).
Defined.

(** A phrase that is markup stands in the markdown as markup. *)
Lemma key_phrases_are_embedded_verbatim_witness :
  exists html,
    In (Markdown html true) (screen (snd markup_run)) /\
    Lit " " :: html
    = flat_map
        (fun name => [Lit " "; Lit span_open; Lit name; Lit "</span>"])
        (firstn 10 [markup_phrase]) /\
    In (Lit markup_phrase) html.
Proof.
  assert (run (mock markup_answers) love_inputs tt
          = (fst markup_run, snd markup_run)) as Hrun by evaluated.
  assert (In (love_call markup_answers ExtractKeyPhrases)
            (calls (snd markup_run))) as Hin by evaluated.
  assert (In markup_phrase (firstn 10 [markup_phrase])) as Hp
    by (left; reflexivity).
  exact (key_phrases_are_embedded_verbatim (mock markup_answers) love_inputs
           tt _ _ _ [("key_phrases", PList [PStr markup_phrase])] []
           [markup_phrase] markup_phrase
           Hrun Hin eq_refl eq_refl eq_refl Hp).
Defined.

Lemma final_state_and_pii_outcome_witness :
  match final_state (screen (snd unauthorized_run)) with
  | Failed =>
      pii_outcome (screen (snd unauthorized_run)) = NotAttempted /\
      List.length (filter is_error (screen (snd unauthorized_run))) = 1 /\
      exists shown e, screen (snd unauthorized_run) = shown ++ fatal_error e
  | Succeeded =>
      pii_outcome (screen (snd unauthorized_run)) <> NotAttempted /\
      existsb is_error (screen (snd unauthorized_run)) = false
  | Idle =>
      calls (snd unauthorized_run) = [] /\ svc (snd unauthorized_run) = tt /\
      pii_outcome (screen (snd unauthorized_run)) = NotAttempted
  | Requesting => False
  end.
Proof.
  assert (run (mock unauthorized_answers) love_inputs tt
          = (fst unauthorized_run, snd unauthorized_run)) as Hrun
    by evaluated.
  exact (final_state_and_pii_outcome (mock unauthorized_answers) love_inputs
           tt _ _ Hrun).
Defined.

Lemma page_runs_to_its_last_line_witness :
  fst review_rendered = inr tt /\
  exists middle,
    page_widgets (snd review_rendered) = page_head ++ middle ++ page_foot.
Proof.
  assert (In (sample_choice review_page) options) as Hchoice by evaluated.
  exact (page_runs_to_its_last_line (mock love_answers) review_page tt
           Hchoice).
Defined.

(** The product review is chosen: it is in the text area, and the five
    calls have it as their document. *)
Lemma chosen_sample_is_analysed_witness :
  In (TextArea "Enter text to analyze:" review_text 200
        "Type or paste your text here...")
     (page_widgets (snd review_rendered)) /\
  In (Caption review_text) (page_widgets (snd review_rendered)) /\
  Forall (fun c => call_documents c = [review_text])
    (page_calls (snd review_rendered)) /\
  (nonempty (typed_endpoint review_page) && nonempty (typed_key review_page)
   = true ->
   In (Analysis (Button "🚀 Analyze Text"))
      (page_widgets (snd review_rendered)) /\
   (pressed review_page = true ->
    client_init (mock love_answers) (typed_endpoint review_page)
      (typed_key review_page) = None ->
    exists c rest,
      page_calls (snd review_rendered) = c :: rest /\
      call_op c = AnalyzeSentiment /\ call_documents c = [review_text])).
Proof.
  assert (assoc (sample_choice review_page) samples = Some review_text)
    as Hsample by evaluated.
  assert (sample_choice review_page <> "Custom") as Hcustom
    by (intros H; vm_compute in H; discriminate H).
  exact (chosen_sample_is_analysed (mock love_answers) review_page tt
           review_text Hsample Hcustom eq_refl).
Defined.

Example review_calls :
  map call_op (page_calls (snd review_rendered)) = op_sequence.
Proof. evaluated. Qed.
